(** * Knowledge Hub web client: a shallow embedding of the page handlers

    The pages of [apps/web/app] (search, chat, ingest, upload and the home
    page health card) are embedded as state-passing programs over a small
    exception/state/trace monad.  JavaScript strings are sequences of UTF-16
    code units; numbers that the pages only count or print are integers, and
    similarity scores are the rationals of the body, rounded to doubles where
    a page compares them.  The retrieval and answer service that the pages
    call is modelled separately, in [Module Service]. *)

From Stdlib Require Import List NArith ZArith QArith Bool Ascii String Lia.
From Stdlib Require Import Numbers.DecimalString Sorting.Sorted.
Import ListNotations.

Set Warnings "-register-all".

(* ================================================================== *)
(** ** JavaScript values used by the pages *)
(* ================================================================== *)

Module JS.

(** A string is a sequence of UTF-16 code units. *)
Definition char := N.
Definition jsstring := list char.

(** ASCII literals of the source, as code units. *)
Definition js (s : string) : jsstring :=
  map N_of_ascii (list_ascii_of_string s).

Fixpoint streq (a b : jsstring) : bool :=
  match a, b with
  | [], [] => true
  | x :: a', y :: b' => (x =? y)%N && streq a' b'
  | _, _ => false
  end.

(** ECMAScript [WhiteSpace] and [LineTerminator] code points, the set that
    [String.prototype.trim] strips. *)
Definition whiteSpaceCodes : list N :=
  [9; 11; 12; 32; 160; 65279; 5760;
   8192; 8193; 8194; 8195; 8196; 8197; 8198; 8199; 8200; 8201; 8202;
   8239; 8287; 12288]%N.

Definition lineTerminatorCodes : list N := [10; 13; 8232; 8233]%N.

Definition isWhiteSpace (c : char) : bool :=
  existsb (N.eqb c) (whiteSpaceCodes ++ lineTerminatorCodes).

Fixpoint trimStart (s : jsstring) : jsstring :=
  match s with
  | [] => []
  | c :: r => if isWhiteSpace c then trimStart r else s
  end.

Definition trimEnd (s : jsstring) : jsstring := rev (trimStart (rev s)).

(** [s.trim()] *)
Definition trim (s : jsstring) : jsstring := trimEnd (trimStart s).

(** Truthiness of a string: [!s] holds exactly for the empty string. *)
Definition truthy (s : jsstring) : bool :=
  match s with [] => false | _ :: _ => true end.

(** [s.split(sep)] for a one-code-unit separator. *)
Fixpoint split (sep : char) (s : jsstring) : list jsstring :=
  match s with
  | [] => [[]]
  | c :: r =>
      if (c =? sep)%N then [] :: split sep r
      else match split sep r with
           | [] => [[c]]
           | t :: ts => (c :: t) :: ts
           end
  end.

(** [parts.join(sep)] *)
Fixpoint join (sep : jsstring) (parts : list jsstring) : jsstring :=
  match parts with
  | [] => []
  | t :: r =>
      match r with
      | [] => t
      | _ :: _ => t ++ sep ++ join sep r
      end
  end.

(** [String(n)] for an integer-valued number. *)
Definition numberToString (n : Z) : jsstring :=
  js (NilEmpty.string_of_int (Z.to_int n)).

(** Template interpolation of a possibly [undefined] string. *)
Definition orUndefined (v : option jsstring) : jsstring :=
  match v with Some s => s | None => js "undefined" end.

(** JSON documents as they travel in request and response bodies. *)
Inductive JSON : Type :=
| JNull
| JBool (b : bool)
| JNum (q : Q)
| JStr (s : jsstring)
| JArr (items : list JSON)
| JObj (members : list (jsstring * JSON)).

Definition JInt (n : Z) : JSON := JNum (inject_Z n).

(** Property read [o.key]; [None] is [undefined]. *)
Fixpoint assoc (key : jsstring) (members : list (jsstring * JSON)) : option JSON :=
  match members with
  | [] => None
  | (k, v) :: r => if streq k key then Some v else assoc key r
  end.

Definition get (key : string) (o : JSON) : option JSON :=
  match o with
  | JObj members => assoc (js key) members
  | _ => None
  end.

Definition keys (o : JSON) : list jsstring :=
  match o with
  | JObj members => map fst members
  | _ => []
  end.

Definition asString (v : option JSON) : option jsstring :=
  match v with Some (JStr s) => Some s | _ => None end.

Definition asNumber (v : option JSON) : option Q :=
  match v with Some (JNum q) => Some q | _ => None end.

Definition asInt (v : option JSON) : option Z :=
  match v with
  | Some (JNum q) =>
      let r := Qred q in
      if (Qden r =? 1)%positive then Some (Qnum r) else None
  | _ => None
  end.

Definition asArray (v : option JSON) : option (list JSON) :=
  match v with Some (JArr l) => Some l | _ => None end.

Fixpoint traverse {A B : Type} (f : A -> option B) (l : list A) : option (list B) :=
  match l with
  | [] => Some []
  | a :: r =>
      match f a, traverse f r with
      | Some b, Some bs => Some (b :: bs)
      | _, _ => None
      end
  end.

(** A value that was thrown: an [Error] instance carrying a message, or
    anything else. *)
Inductive Thrown : Type :=
| ErrorObject (message : jsstring)
| OtherValue.

(** [err instanceof Error ? err.message : fallback] *)
Definition messageOr (fallback : jsstring) (err : Thrown) : jsstring :=
  match err with
  | ErrorObject m => m
  | OtherValue => fallback
  end.

(** *** Requests, responses and the effects a handler performs *)

Inductive Method : Type := GET | POST.

Record File : Type := { file_name : jsstring; file_bytes : list N }.

Inductive Body : Type :=
| NoBody
| JsonBody (j : JSON)
| FormData (fields : list (jsstring * File)).

Record Request : Type := {
  method : Method;
  url : jsstring;
  headers : list (jsstring * jsstring);
  body : Body
}.

(** A response whose body, read with [json()], either fails to parse or
    yields a value of the type the page annotates it with. *)
Record Response (A : Type) : Type := {
  status : Z;
  statusText : jsstring;
  json : Thrown + A
}.
Arguments status {A} r.
Arguments statusText {A} r.
Arguments json {A} r.

(** [response.ok] *)
Definition ok {A : Type} (r : Response A) : bool :=
  (200 <=? status r)%Z && (status r <=? 299)%Z.

(** What the network answers to one [fetch]: the promise rejects, or it
    resolves with a response. *)
Inductive FetchOutcome (A : Type) : Type :=
| Rejected (e : Thrown)
| Resolved (r : Response A).
Arguments Rejected {A} e.
Arguments Resolved {A} r.

Inductive Effect : Type :=
| PreventDefault
| Fetch (r : Request)
| SetTimeout (ms : Z).

(** *** The handler monad: page state, an exception channel and the trace
    of effects performed so far. *)

Definition M (S A : Type) : Type := S -> (Thrown + A) * S * list Effect.

Definition ret {S A : Type} (a : A) : M S A :=
  fun s => (inr a, s, []).

Definition bind {S A B : Type} (m : M S A) (f : A -> M S B) : M S B :=
  fun s =>
    match m s with
    | (inl e, s', t) => (inl e, s', t)
    | (inr a, s', t) =>
        match f a s' with
        | (r, s'', t') => (r, s'', t ++ t')
        end
    end.

Definition throw {S A : Type} (e : Thrown) : M S A :=
  fun s => (inl e, s, []).

Definition emit {S : Type} (e : Effect) : M S unit :=
  fun s => (inr tt, s, [e]).

Definition modify {S : Type} (f : S -> S) : M S unit :=
  fun s => (inr tt, f s, []).

(** [try { m } catch (err) { h err }] *)
Definition tryCatch {S A : Type} (m : M S A) (h : Thrown -> M S A) : M S A :=
  fun s =>
    match m s with
    | (inl e, s', t) =>
        match h e s' with
        | (r, s'', t') => (r, s'', t ++ t')
        end
    | done => done
    end.

(** [try { m } finally { f }] *)
Definition finally {S A : Type} (m : M S A) (f : M S unit) : M S A :=
  fun s =>
    match m s with
    | (r, s', t) =>
        match f s' with
        | (inl e, s'', t') => (inl e, s'', t ++ t')
        | (inr _, s'', t') => (r, s'', t ++ t')
        end
    end.

(** [await fetch(req)] against the outcome the network delivers. *)
Definition fetch {S A : Type} (req : Request) (net : FetchOutcome A) : M S (Response A) :=
  bind (emit (Fetch req))
       (fun _ => match net with
                 | Rejected e => throw e
                 | Resolved r => ret r
                 end).

(** [await response.json()] *)
Definition readJson {S A : Type} (r : Response A) : M S A :=
  match json r with
  | inl e => throw e
  | inr a => ret a
  end.

Definition finalState {S A : Type} (r : (Thrown + A) * S * list Effect) : S :=
  snd (fst r).

Definition trace {S A : Type} (r : (Thrown + A) * S * list Effect) : list Effect :=
  snd r.

Definition outcome {S A : Type} (r : (Thrown + A) * S * list Effect) : Thrown + A :=
  fst (fst r).

Definition requests (t : list Effect) : list Request :=
  flat_map (fun e => match e with Fetch r => [r] | _ => [] end) t.

(** [s.startsWith(prefix)] *)
Fixpoint startsWith (prefix s : jsstring) : bool :=
  match prefix, s with
  | [], _ => true
  | p :: prefix', c :: s' => (p =? c)%N && startsWith prefix' s'
  | _ :: _, [] => false
  end.

End JS.

Import JS.

Declare Scope js_scope.
Delimit Scope js_scope with js.
Notation "x <- m ;; k" := (bind m (fun x => k))
  (at level 61, m at next level, right associativity) : js_scope.
Notation "m ;; k" := (bind m (fun _ => k))
  (at level 61, right associativity) : js_scope.

Open Scope js_scope.
Open Scope list_scope.

(* ================================================================== *)
(** ** Numbers as the pages hold them: IEEE 754 doubles *)
(* ================================================================== *)

Module Double.

(** The Number that a decimal of a JSON body or of the source text denotes:
    a finite double, given by its exact value, or an infinity when the
    decimal is beyond the range.  (A JSON body cannot carry a NaN.) *)
Inductive t : Type :=
| Finite (value : Q)
| Infinity (negative : bool).

(** The integer nearest to [N / D], ties going to the even one; [N >= 0]
    and [D > 0]. *)
Definition roundHalfEven (N D : Z) : Z :=
  let k := (N / D)%Z in
  let r := (N mod D)%Z in
  if (2 * r <? D)%Z then k
  else if (D <? 2 * r)%Z then (k + 1)%Z
  else if Z.even k then k else (k + 1)%Z.

(** [floor (log2 (n / d))] for positive [n] and [d]. *)
Definition exponentOf (n d : Z) : Z :=
  let e := (Z.log2 n - Z.log2 d)%Z in
  if (if (0 <=? e)%Z then (d * 2 ^ e <=? n)%Z else (d <=? n * 2 ^ (- e))%Z)
  then e else (e - 1)%Z.

(** The double nearest to the decimal [q], ties to the even significand:
    53 bits of significand, the exponent of the last place no smaller than
    -1074, and an infinity from [2 ^ 1024] on. *)
Definition ofDecimal (q : Q) : t :=
  let n := Z.abs (Qnum q) in
  let d := Zpos (Qden q) in
  if (n =? 0)%Z then Finite 0
  else
    let e := exponentOf n d in
    let u := if (e <? -1022)%Z then (-1074)%Z else (e - 52)%Z in
    let m := if (0 <=? u)%Z then roundHalfEven n (d * 2 ^ u)
             else roundHalfEven (n * 2 ^ (- u)) d in
    let signed := if (Qnum q <? 0)%Z then (- m)%Z else m in
    if (0 <=? u)%Z then
      if (2 ^ 1024 <=? m * 2 ^ u)%Z then Infinity (Qnum q <? 0)%Z
      else Finite (inject_Z (signed * 2 ^ u))
    else Finite (Qmake signed (Z.to_pos (2 ^ (- u)))).

(** [x > y] on Numbers. *)
Definition gtb (x y : t) : bool :=
  match x, y with
  | Finite a, Finite b => negb (Qle_bool a b)
  | Finite _, Infinity negative => negative
  | Infinity negative, Finite _ => negb negative
  | Infinity a, Infinity b => negb a && b
  end.

End Double.

(* ================================================================== *)
(** ** The regular expressions built by the search page *)
(* ================================================================== *)

Module RegExp.

(** [SyntaxCharacter :: one of ^ $ \ . * + ? ( ) [ ] { } |] *)
Definition syntaxCharacters : list N :=
  [94; 36; 92; 46; 42; 43; 63; 40; 41; 91; 93; 123; 125; 124]%N.

Definition isSyntaxCharacter (c : char) : bool :=
  existsb (N.eqb c) syntaxCharacters.

(** The body of a capture group, after its opening parenthesis: alternatives
    of pattern characters separated by [|], closed by [)] at the end of the
    pattern.  [None] when the pattern leaves this fragment: it then uses
    further regular-expression syntax or is rejected with a [SyntaxError]. *)
Fixpoint parseDisjunction (p : jsstring) : option (list jsstring) :=
  match p with
  | [] => None
  | c :: r =>
      if (c =? 41)%N then
        match r with [] => Some [[]] | _ :: _ => None end
      else if (c =? 124)%N then
        option_map (cons []) (parseDisjunction r)
      else if isSyntaxCharacter c then None
      else match parseDisjunction r with
           | Some (a :: alts) => Some ((c :: a) :: alts)
           | _ => None
           end
  end.

(** [new RegExp(pattern, 'gi')] on the fragment above; the value is the
    list of alternatives of the single capture group. *)
Definition compile (pattern : jsstring) : option (list jsstring) :=
  match pattern with
  | c :: r => if (c =? 40)%N then parseDisjunction r else None
  | [] => None
  end.

(** A piece of the subject string during [replace]: a code unit outside
    every match, or the text of one match. *)
Inductive Segment : Type :=
| Unmatched (c : char)
| Matched (m : jsstring).

Section Matching.

(** [Canonicalize(ch)] of the [i] flag: the case table of the runtime. *)
Variable canonicalize : char -> char.

(** Does the literal alternative match at the start of [s]? *)
Fixpoint matchesAt (alt s : jsstring) : bool :=
  match alt, s with
  | [], _ => true
  | p :: alt', c :: s' =>
      (canonicalize p =? canonicalize c)%N && matchesAt alt' s'
  | _ :: _, [] => false
  end.

(** The first alternative, in pattern order, that matches at the start of
    [s]; the result is the length of the match. *)
Fixpoint firstMatch (alts : list jsstring) (s : jsstring) : option nat :=
  match alts with
  | [] => None
  | a :: r => if matchesAt a s then Some (List.length a) else firstMatch r s
  end.

(** The successive matches of a global regular expression over [s], left to
    right.  [skip] counts the code units of the current match that are still
    to be passed; after an empty match the scan advances by one code unit,
    and one more match is attempted at the end of the string. *)
Fixpoint scan (alts : list jsstring) (s : jsstring) (skip : nat) : list Segment :=
  match skip with
  | S k =>
      match s with
      | [] => []
      | _ :: r => scan alts r k
      end
  | O =>
      match firstMatch alts s with
      | Some n =>
          match n, s with
          | O, [] => [Matched []]
          | O, c :: r => Matched [] :: Unmatched c :: scan alts r 0
          | S k, _ :: r => Matched (firstn n s) :: scan alts r k
          | S _, [] => []
          end
      | None =>
          match s with
          | [] => []
          | c :: r => Unmatched c :: scan alts r 0
          end
      end
  end.

End Matching.

(** [GetSubstitution]: the forms [$$], [$&] and [$1] are interpreted, for a
    regular expression with one capture group. *)
Fixpoint getSubstitution (template matched capture1 : jsstring) : jsstring :=
  match template with
  | [] => []
  | c :: r =>
      if (c =? 36)%N then
        match r with
        | d :: r' =>
            if (d =? 36)%N then 36%N :: getSubstitution r' matched capture1
            else if (d =? 38)%N then matched ++ getSubstitution r' matched capture1
            else if (d =? 49)%N then capture1 ++ getSubstitution r' matched capture1
            else c :: getSubstitution r matched capture1
        | [] => [c]
        end
      else c :: getSubstitution r matched capture1
  end.

Definition substitute (template : jsstring) (seg : Segment) : jsstring :=
  match seg with
  | Unmatched c => [c]
  | Matched m => getSubstitution template m m
  end.

(** The subject string the segments were cut from. *)
Definition subject (segs : list Segment) : jsstring :=
  flat_map (fun seg => match seg with Unmatched c => [c] | Matched m => m end) segs.

(** [s.replace(re, template)] for a global, case-insensitive [re]. *)
Definition replace (canonicalize : char -> char) (alts : list jsstring)
    (s template : jsstring) : jsstring :=
  flat_map (substitute template) (scan canonicalize alts s 0).

End RegExp.

(* ================================================================== *)
(** ** Search page ([/search]) *)
(* ================================================================== *)

Module SearchPage.

(** [interface ChunkResult] *)
Module ChunkResult.
Record t : Type := {
  id : Z;
  text : jsstring;
  chunk_index : Z;
  document_id : Z;
  filename : jsstring;
  similarity_score : Q
}.

(** The properties the page reads from one element of [results]. *)
Definition ofJSON (j : JSON) : option t :=
  match asInt (get "id" j), asString (get "text" j),
        asInt (get "chunk_index" j), asInt (get "document_id" j),
        asString (get "filename" j), asNumber (get "similarity_score" j) with
  | Some i, Some t, Some c, Some d, Some f, Some s =>
      Some {| id := i; text := t; chunk_index := c; document_id := d;
              filename := f; similarity_score := s |}
  | _, _, _, _, _, _ => None
  end.
End ChunkResult.

(** [interface SearchResponse] *)
Module SearchResponse.
Record t : Type := {
  query : jsstring;
  results : list ChunkResult.t;
  total_results : Z
}.

(** The properties the page reads from the parsed body. *)
Definition ofJSON (j : JSON) : option t :=
  match asString (get "query" j), asArray (get "results" j),
        asInt (get "total_results" j) with
  | Some q, Some items, Some n =>
      match traverse ChunkResult.ofJSON items with
      | Some rs => Some {| query := q; results := rs; total_results := n |}
      | None => None
      end
  | _, _, _ => None
  end.
End SearchResponse.

(** The four [useState] cells of the component. *)
Record State : Type := {
  query : jsstring;
  results : option SearchResponse.t;
  loading : bool;
  error : jsstring
}.

Definition initial : State :=
  {| query := []; results := None; loading := false; error := [] |}.

Definition setQuery (v : jsstring) : M State unit :=
  modify (fun st => {| query := v; results := results st;
                       loading := loading st; error := error st |}).

Definition setResults (v : option SearchResponse.t) : M State unit :=
  modify (fun st => {| query := query st; results := v;
                       loading := loading st; error := error st |}).

Definition setLoading (v : bool) : M State unit :=
  modify (fun st => {| query := query st; results := results st;
                       loading := v; error := error st |}).

Definition setError (v : jsstring) : M State unit :=
  modify (fun st => {| query := query st; results := results st;
                       loading := loading st; error := v |}).

(** The replacement template of [highlightText]; 34 is the double quote. *)
Definition markTemplate : jsstring :=
  js "<mark class=" ++ [34%N] ++ js "bg-yellow-200 px-1 rounded" ++ [34%N]
     ++ js ">$1</mark>".

(** The pattern handed to [new RegExp]; 32 is the space. *)
Definition highlightPattern (query : jsstring) : jsstring :=
  js "(" ++ join (js "|") (split 32%N (trim query)) ++ js ")".

(** [getScoreColor].  The page holds the double nearest to the number of the
    body, and each literal of the source denotes the double nearest to it. *)
Definition getScoreColor (score : Q) : jsstring :=
  let s := Double.ofDecimal score in
  if Double.gtb s (Double.ofDecimal (8 # 10)) then js "text-green-600"
  else if Double.gtb s (Double.ofDecimal (6 # 10)) then js "text-blue-600"
  else if Double.gtb s (Double.ofDecimal (4 # 10)) then js "text-yellow-600"
  else js "text-gray-600".

(** What the component shows: the error banner, the results panel and the
    instructions card. *)
Record ResultCard : Type := {
  rank : Z;
  card_filename : jsstring;
  chunk_number : Z;
  score_class : jsstring;
  score : Q;
  html : jsstring;
  card_document_id : Z;
  card_chunk_id : Z
}.

Inductive ResultsBody : Type :=
| NoResultsFound
| ResultCards (cards : list ResultCard).

Record ResultsPanel : Type := {
  count_label : jsstring;
  panel_body : ResultsBody
}.

Record View : Type := {
  error_banner : option jsstring;
  results_panel : option ResultsPanel;
  instructions : bool
}.

Fixpoint mapi {A B : Type} (f : Z -> A -> B) (index : Z) (l : list A) : list B :=
  match l with
  | [] => []
  | a :: r => f index a :: mapi f (index + 1)%Z r
  end.

Section Component.

Variable NEXT_PUBLIC_API_URL : jsstring.
Variable canonicalize : char -> char.

Definition searchRequest (query : jsstring) : Request :=
  {| method := POST;
     url := NEXT_PUBLIC_API_URL ++ js "/search";
     headers := [(js "Content-Type", js "application/json")];
     body := JsonBody (JObj [(js "query", JStr (trim query));
                             (js "k", JInt 10)]) |}.

(** [handleSearch], run in the state [st] the handler closed over, against
    the answer [net] of the network. *)
Definition handleSearch (net : FetchOutcome SearchResponse.t) : M State unit :=
  fun st =>
    (emit PreventDefault ;;
     if negb (truthy (trim (query st))) then ret tt
     else
       setLoading true ;;
       setError [] ;;
       finally
         (tryCatch
            (response <- fetch (searchRequest (query st)) net ;;
             (if negb (ok response)
              then throw (ErrorObject (js "Search failed: " ++ statusText response))
              else ret tt) ;;
             data <- readJson response ;;
             setResults (Some data))
            (fun err =>
               setError (messageOr (js "Search failed") err) ;;
               setResults None))
         (setLoading false)) st.

(** [highlightText(text, query)]; [None] when the pattern built from the
    query is outside the fragment of [RegExp.compile]. *)
Definition highlightText (text query : jsstring) : option jsstring :=
  if negb (truthy (trim query)) then Some text
  else
    match RegExp.compile (highlightPattern query) with
    | Some regex => Some (RegExp.replace canonicalize regex text markTemplate)
    | None => None
    end.

(** One card of the results list; [None] when [highlightText] leaves the
    fragment of [RegExp.compile] on the query. *)
Definition resultCard (q : jsstring) (index : Z) (result : ChunkResult.t)
    : option ResultCard :=
  match highlightText (ChunkResult.text result) q with
  | Some highlighted =>
      Some {| rank := index + 1;
              card_filename := ChunkResult.filename result;
              chunk_number := ChunkResult.chunk_index result + 1;
              score_class := getScoreColor (ChunkResult.similarity_score result);
              score := ChunkResult.similarity_score result;
              html := highlighted;
              card_document_id := ChunkResult.document_id result;
              card_chunk_id := ChunkResult.id result |}
  | None => None
  end.

Definition countLabel (r : SearchResponse.t) : jsstring :=
  numberToString (SearchResponse.total_results r)
    ++ js " result"
    ++ (if (SearchResponse.total_results r =? 1)%Z then [] else js "s")
    ++ js " for " ++ [34%N] ++ SearchResponse.query r ++ [34%N].

(** The body of the results panel.  The cards are built only when
    [total_results] is not zero, one [highlightText] call per result. *)
Definition panelBody (r : SearchResponse.t) : option ResultsBody :=
  if (SearchResponse.total_results r =? 0)%Z then Some NoResultsFound
  else option_map ResultCards
         (traverse (fun card => card)
            (mapi (resultCard (SearchResponse.query r)) 0
                  (SearchResponse.results r))).

(** The JSX returned by the component.  The render builds a regular
    expression for every card, so it yields a view only when the query
    echoed by the response stays in the fragment of [RegExp.compile];
    [None] otherwise: the page then throws the [SyntaxError] of
    [new RegExp] out of the render, or highlights by regular-expression
    syntax outside the fragment. *)
Definition render (st : State) : option View :=
  match results st with
  | None =>
      Some {| error_banner := if truthy (error st) then Some (error st) else None;
              results_panel := None;
              instructions := negb (loading st) |}
  | Some r =>
      match panelBody r with
      | Some shown =>
          Some {| error_banner := if truthy (error st) then Some (error st) else None;
                  results_panel :=
                    Some {| count_label := countLabel r; panel_body := shown |};
                  instructions := false |}
      | None => None
      end
  end.

End Component.

(** The [disabled] attribute of the submit button:
    [loading || !query.trim()]. *)
Definition submitDisabled (st : State) : bool :=
  loading st || negb (truthy (trim (query st))).

End SearchPage.

(* ================================================================== *)
(** ** Chat page ([/chat]) *)
(* ================================================================== *)

Module ChatPage.

(** [interface Citation] *)
Module Citation.
Record t : Type := {
  document_id : Z;
  chunk_index : Z
}.

Definition ofJSON (j : JSON) : option t :=
  match asInt (get "document_id" j), asInt (get "chunk_index" j) with
  | Some d, Some c => Some {| document_id := d; chunk_index := c |}
  | _, _ => None
  end.
End Citation.

(** [interface ContextHit] *)
Module ContextHit.
Record t : Type := {
  document_id : Z;
  chunk_index : Z;
  score : Q;
  preview : jsstring
}.

Definition ofJSON (j : JSON) : option t :=
  match asInt (get "document_id" j), asInt (get "chunk_index" j),
        asNumber (get "score" j), asString (get "preview" j) with
  | Some d, Some c, Some s, Some p =>
      Some {| document_id := d; chunk_index := c; score := s; preview := p |}
  | _, _, _, _ => None
  end.
End ContextHit.

(** [interface QAResponse].  A property that the body leaves out reads as
    [undefined], here [None]; [ask] supplies a default for each. *)
Module QAResponse.
Record t : Type := {
  answer : option jsstring;
  citations : option (list Citation.t);
  hits : option (list ContextHit.t)
}.

(** A property that is absent or [null] reads as missing. *)
Definition optional {A : Type} (read : JSON -> option A) (v : option JSON) : option (option A) :=
  match v with
  | None => Some None
  | Some JNull => Some None
  | Some j => option_map Some (read j)
  end.

Definition ofJSON (j : JSON) : option t :=
  match optional (fun v => asString (Some v)) (get "answer" j),
        optional (fun v => match asArray (Some v) with
                           | Some l => traverse Citation.ofJSON l
                           | None => None
                           end) (get "citations" j),
        optional (fun v => match asArray (Some v) with
                           | Some l => traverse ContextHit.ofJSON l
                           | None => None
                           end) (get "hits" j) with
  | Some a, Some c, Some h => Some {| answer := a; citations := c; hits := h |}
  | _, _, _ => None
  end.
End QAResponse.

Record State : Type := {
  query : jsstring;
  loading : bool;
  answer : jsstring;
  citations : list Citation.t;
  hits : list ContextHit.t;
  error : jsstring
}.

Definition initial : State :=
  {| query := []; loading := false; answer := []; citations := [];
     hits := []; error := [] |}.

Definition setLoading (v : bool) : M State unit :=
  modify (fun st => {| query := query st; loading := v; answer := answer st;
                       citations := citations st; hits := hits st;
                       error := error st |}).

Definition setAnswer (v : jsstring) : M State unit :=
  modify (fun st => {| query := query st; loading := loading st; answer := v;
                       citations := citations st; hits := hits st;
                       error := error st |}).

Definition setCitations (v : list Citation.t) : M State unit :=
  modify (fun st => {| query := query st; loading := loading st;
                       answer := answer st; citations := v; hits := hits st;
                       error := error st |}).

Definition setHits (v : list ContextHit.t) : M State unit :=
  modify (fun st => {| query := query st; loading := loading st;
                       answer := answer st; citations := citations st;
                       hits := v; error := error st |}).

Definition setError (v : jsstring) : M State unit :=
  modify (fun st => {| query := query st; loading := loading st;
                       answer := answer st; citations := citations st;
                       hits := hits st; error := v |}).

(** [s || ''] on a possibly missing string. *)
Definition stringOrEmpty (v : option jsstring) : jsstring :=
  match v with
  | Some s => if truthy s then s else []
  | None => []
  end.

(** [a || []] on a possibly missing array (every array is truthy). *)
Definition arrayOrEmpty {A : Type} (v : option (list A)) : list A :=
  match v with
  | Some l => l
  | None => []
  end.

Section Component.

Variable NEXT_PUBLIC_API_URL : jsstring.

Definition qaRequest (query : jsstring) : Request :=
  {| method := POST;
     url := NEXT_PUBLIC_API_URL ++ js "/qa";
     headers := [(js "Content-Type", js "application/json")];
     body := JsonBody (JObj [(js "query", JStr (trim query));
                             (js "k", JInt 6);
                             (js "max_tokens", JInt 384)]) |}.

(** [ask] *)
Definition ask (net : FetchOutcome QAResponse.t) : M State unit :=
  fun st =>
    (emit PreventDefault ;;
     if negb (truthy (trim (query st))) || loading st then ret tt
     else
       setLoading true ;;
       setError [] ;;
       setAnswer [] ;;
       setCitations [] ;;
       setHits [] ;;
       finally
         (tryCatch
            (response <- fetch (qaRequest (query st)) net ;;
             (if negb (ok response)
              then throw (ErrorObject (js "Request failed: " ++ statusText response))
              else ret tt) ;;
             data <- readJson response ;;
             setAnswer (stringOrEmpty (QAResponse.answer data)) ;;
             setCitations (arrayOrEmpty (QAResponse.citations data)) ;;
             setHits (arrayOrEmpty (QAResponse.hits data)))
            (fun err => setError (messageOr (js "Failed to get answer") err)))
         (setLoading false)) st.

End Component.

(** The [disabled] attribute of the submit button:
    [loading || !query.trim()]. *)
Definition submitDisabled (st : State) : bool :=
  loading st || negb (truthy (trim (query st))).

(** [getScoreColor] of the chat page.  The page holds the double nearest to
    the number of the body, and each literal of the source denotes the
    double nearest to it. *)
Definition getScoreColor (score : Q) : jsstring :=
  let s := Double.ofDecimal score in
  if Double.gtb s (Double.ofDecimal (8 # 10)) then js "text-green-600"
  else if Double.gtb s (Double.ofDecimal (6 # 10)) then js "text-blue-600"
  else if Double.gtb s (Double.ofDecimal (4 # 10)) then js "text-yellow-600"
  else js "text-gray-600".

(** What the component shows: the error banner, the answer with its
    citation chips, the source context cards and the instructions card. *)
Record HitCard : Type := {
  rank : Z;
  card_document_id : Z;
  card_chunk_index : Z;
  score_class : jsstring;
  card_score : Q;
  card_preview : jsstring
}.

Record AnswerSection : Type := {
  answer_text : jsstring;
  citation_chips : option (list Citation.t)
}.

Record SourceContext : Type := {
  chunk_count : Z;
  hit_cards : list HitCard
}.

Record View : Type := {
  error_banner : option jsstring;
  answer_section : option AnswerSection;
  source_context : option SourceContext;
  instructions : bool
}.

Definition hitCard (index : Z) (hit : ContextHit.t) : HitCard :=
  {| rank := index + 1;
     card_document_id := ContextHit.document_id hit;
     card_chunk_index := ContextHit.chunk_index hit;
     score_class := getScoreColor (ContextHit.score hit);
     card_score := ContextHit.score hit;
     card_preview := ContextHit.preview hit |}.

(** The JSX returned by the component. *)
Definition render (st : State) : View :=
  {| error_banner := if truthy (error st) then Some (error st) else None;
     answer_section :=
       if truthy (answer st) then
         Some {| answer_text := answer st;
                 citation_chips :=
                   match citations st with
                   | [] => None
                   | _ :: _ => Some (citations st)
                   end |}
       else None;
     source_context :=
       match hits st with
       | [] => None
       | _ :: _ =>
           Some {| chunk_count := Z.of_nat (List.length (hits st));
                   hit_cards := SearchPage.mapi hitCard 0 (hits st) |}
       end;
     instructions :=
       negb (truthy (answer st)) && negb (loading st) && negb (truthy (error st)) |}.

End ChatPage.

(* ================================================================== *)
(** ** Ingest page ([/ingest]) *)
(* ================================================================== *)

Module IngestPage.

(** The body of [POST /ingest]: [{job, source}] on success, [{message}] on
    a rejection. *)
Module IngestResponse.
Record t : Type := {
  job : option jsstring;
  source : option jsstring;
  message : option jsstring
}.
End IngestResponse.

Record State : Type := {
  url : jsstring;
  source : jsstring;
  status : jsstring;
  loading : bool
}.

Definition initial : State :=
  {| url := []; source := js "github"; status := []; loading := false |}.

Definition setUrl (v : jsstring) : M State unit :=
  modify (fun st => {| url := v; source := source st; status := status st;
                       loading := loading st |}).

Definition setStatus (v : jsstring) : M State unit :=
  modify (fun st => {| url := url st; source := source st; status := v;
                       loading := loading st |}).

Definition setLoading (v : bool) : M State unit :=
  modify (fun st => {| url := url st; source := source st;
                       status := status st; loading := v |}).

(** U+2705 and U+274C, the marks that open the status line. *)
Definition checkMark : jsstring := [9989%N].
Definition crossMark : jsstring := [10060%N].

Definition messageOrDefault (v : option jsstring) : jsstring :=
  match v with
  | Some s => if truthy s then s else js "Failed to ingest"
  | None => js "Failed to ingest"
  end.

Section Component.

Variable NEXT_PUBLIC_API_URL : jsstring.

Definition ingestRequest (source url : jsstring) : Request :=
  {| method := POST;
     JS.url := NEXT_PUBLIC_API_URL ++ js "/ingest";
     headers := [(js "Content-Type", js "application/json")];
     body := JsonBody (JObj [(js "source", JStr source);
                             (js "url", JStr url)]) |}.

(** [handleSubmit] *)
Definition handleSubmit (net : FetchOutcome IngestResponse.t) : M State unit :=
  fun st =>
    (emit PreventDefault ;;
     if negb (truthy (url st)) then ret tt
     else
       setLoading true ;;
       setStatus (js "Ingesting...") ;;
       finally
         (tryCatch
            (res <- fetch (ingestRequest (source st) (url st)) net ;;
             data <- readJson res ;;
             if ok res then
               setStatus (checkMark ++ js " Successfully queued "
                            ++ orUndefined (IngestResponse.job data)
                            ++ js " for "
                            ++ orUndefined (IngestResponse.source data)) ;;
               setUrl []
             else
               setStatus (crossMark ++ js " Error: "
                            ++ messageOrDefault (IngestResponse.message data)))
            (fun _ => setStatus (crossMark ++ js " Error: Failed to connect to API")))
         (setLoading false)) st.

End Component.

(** The banner under the form: shown when the status line is not empty,
    green when the line starts with the check mark and red otherwise. *)
Inductive BannerColor : Type := Green | Red.

Definition statusBanner (st : State) : option (BannerColor * jsstring) :=
  if truthy (status st) then
    Some (if startsWith checkMark (status st) then Green else Red, status st)
  else None.

End IngestPage.

(* ================================================================== *)
(** ** Upload page ([/upload]) *)
(* ================================================================== *)

Module UploadPage.

(** The body of [POST /documents]; [document_id] is [None] when the body has
    no such property, and the page then reads [undefined]. *)
Module UploadResponse.
Record t : Type := { document_id : option Z }.
End UploadResponse.

(** The properties [poll] reads from the body of [GET /documents/{id}]. *)
Module DocumentStatus.
Record t : Type := {
  status : jsstring;
  chunks : Z
}.
End DocumentStatus.

Record State : Type := {
  file : option File;
  status : jsstring;
  docId : option Z
}.

Definition initial : State :=
  {| file := None; status := []; docId := None |}.

Definition setStatus (v : jsstring) : M State unit :=
  modify (fun st => {| file := file st; status := v; docId := docId st |}).

Definition setDocId (v : option Z) : M State unit :=
  modify (fun st => {| file := file st; status := status st; docId := v |}).

(** The test that ends [poll] without re-arming its timer:
    [j.status === 'parsed' || j.status === 'error' || j.status === 'parsed_empty'] *)
Definition stopsPolling (s : jsstring) : bool :=
  streq s (js "parsed") || streq s (js "error") || streq s (js "parsed_empty").

(** A document id in a string: the number, or [undefined]. *)
Definition idToString (id : option Z) : jsstring :=
  match id with
  | Some n => numberToString n
  | None => js "undefined"
  end.

Definition armsTimer (t : list Effect) : bool :=
  existsb (fun e => match e with SetTimeout _ => true | _ => false end) t.

Definition timerDelays (t : list Effect) : list Z :=
  flat_map (fun e => match e with SetTimeout ms => [ms] | _ => [] end) t.

Section Component.

Variable NEXT_PUBLIC_API_URL : jsstring.

Definition uploadRequest (f : File) : Request :=
  {| method := POST;
     url := NEXT_PUBLIC_API_URL ++ js "/documents";
     headers := [];
     body := FormData [(js "file", f)] |}.

Definition statusRequest (document_id : option Z) : Request :=
  {| method := GET;
     url := NEXT_PUBLIC_API_URL ++ js "/documents/" ++ idToString document_id;
     headers := [];
     body := NoBody |}.

(** The closure [poll] of [onSubmit], for the document id it captured;
    8212 is the em dash of the status line. *)
Definition poll (document_id : option Z) (net : FetchOutcome DocumentStatus.t)
    : M State unit :=
  r <- fetch (statusRequest document_id) net ;;
  j <- readJson r ;;
  setStatus (js "Status: " ++ DocumentStatus.status j ++ js " " ++ [8212%N]
               ++ js " chunks: " ++ numberToString (DocumentStatus.chunks j)) ;;
  if stopsPolling (DocumentStatus.status j) then ret tt
  else emit (SetTimeout 1500).

(** [onSubmit], up to and including the first [setTimeout(poll, 1500)].  The
    result is the document id captured by the closure it scheduled, if it
    scheduled one; the id itself is [undefined] when the body had none. *)
Definition onSubmit (net : FetchOutcome UploadResponse.t)
    : M State (option (option Z)) :=
  fun st =>
    (emit PreventDefault ;;
     match file st with
     | None => ret None
     | Some f =>
         setStatus (js "Uploading...") ;;
         res <- fetch (uploadRequest f) net ;;
         data <- readJson res ;;
         setDocId (UploadResponse.document_id data) ;;
         setStatus (js "Queued for parsing (doc #"
                      ++ idToString (UploadResponse.document_id data)
                      ++ js ")") ;;
         emit (SetTimeout 1500) ;;
         ret (Some (UploadResponse.document_id data))
     end) st.

(** The timer firings that follow: each one runs [poll] against the next
    answer of the network, and another firing follows exactly when that run
    re-armed the timer. *)
Fixpoint polling (document_id : option Z) (nets : list (FetchOutcome DocumentStatus.t))
    : M State unit :=
  match nets with
  | [] => ret tt
  | net :: rest =>
      fun st =>
        match poll document_id net st with
        | (r, st', t) =>
            if armsTimer t then
              match polling document_id rest st' with
              | (r', st'', t') => (r', st'', t ++ t')
              end
            else (r, st', t)
        end
  end.

End Component.

End UploadPage.

(* ================================================================== *)
(** ** Home page: the API status card *)
(* ================================================================== *)

Module HomePage.

(** [interface HealthResponse] *)
Module HealthResponse.
Record t : Type := {
  status : jsstring;
  timestamp : jsstring;
  version : jsstring;
  environment : jsstring
}.

Definition fields : list jsstring :=
  [js "status"; js "timestamp"; js "version"; js "environment"].

Definition ofJSON (j : JSON) : option t :=
  match asString (get "status" j), asString (get "timestamp" j),
        asString (get "version" j), asString (get "environment" j) with
  | Some s, Some ts, Some v, Some e =>
      Some {| status := s; timestamp := ts; version := v; environment := e |}
  | _, _, _, _ => None
  end.
End HealthResponse.

(** [interface ApiStatus] *)
Record ApiStatus : Type := {
  isLoading : bool;
  isConnected : bool;
  data : option HealthResponse.t;
  error : option jsstring
}.

Definition initial : ApiStatus :=
  {| isLoading := true; isConnected := false; data := None; error := None |}.

Definition setApiStatus (f : ApiStatus -> ApiStatus) : M ApiStatus unit :=
  modify f.

Definition healthRequest : Request :=
  {| method := GET;
     url := js "http://localhost:8000/health";
     headers := [(js "Content-Type", js "application/json")];
     body := NoBody |}.

(** [fetchApiHealth] *)
Definition fetchApiHealth (net : FetchOutcome HealthResponse.t) : M ApiStatus unit :=
  setApiStatus (fun prev => {| isLoading := true; isConnected := isConnected prev;
                               data := data prev; error := None |}) ;;
  tryCatch
    (response <- fetch healthRequest net ;;
     (if negb (ok response)
      then throw (ErrorObject (js "HTTP error! status: "
                                 ++ numberToString (JS.status response)))
      else ret tt) ;;
     d <- readJson response ;;
     setApiStatus (fun _ => {| isLoading := false; isConnected := true;
                               data := Some d; error := None |}))
    (fun err =>
       setApiStatus (fun _ => {| isLoading := false; isConnected := false;
                                 data := None;
                                 error := Some (messageOr (js "Unknown error occurred") err) |})).

(** [getStatusText] *)
Definition getStatusText (apiStatus : ApiStatus) : jsstring :=
  if isLoading apiStatus then js "Checking API status..."
  else if isConnected apiStatus then js "API Connected"
  else js "API Disconnected".

(** [getStatusColor] *)
Definition getStatusColor (apiStatus : ApiStatus) : jsstring :=
  if isLoading apiStatus then js "text-yellow-600"
  else if isConnected apiStatus then js "text-green-600"
  else js "text-red-600".

(** The icon components of [lucide-react] that the card uses. *)
Inductive Icon : Type := Clock | CheckCircle | XCircle.

(** [getStatusIcon]: the component and its class name. *)
Definition getStatusIcon (apiStatus : ApiStatus) : Icon * jsstring :=
  if isLoading apiStatus then (Clock, js "h-6 w-6 text-yellow-500 animate-spin")
  else if isConnected apiStatus then (CheckCircle, js "h-6 w-6 text-green-500")
  else (XCircle, js "h-6 w-6 text-red-500").

End HomePage.

(* ================================================================== *)
(** ** Document page ([/documents/[id]]) *)
(* ================================================================== *)

Module DocPage.

(** The properties the page reads from the document it shows. *)
Module Document.
Record t : Type := {
  id : Z;
  filename : jsstring;
  chunks : Z;
  tags : option (list jsstring);
  summary : option jsstring
}.
End Document.

Record State : Type := {
  doc : option Document.t;
  loading : bool
}.

Definition setLoading (v : bool) : M State unit :=
  modify (fun st => {| doc := doc st; loading := v |}).

(** The tags and summary sections of the page, and whether the two buttons
    are disabled. *)
Record View : Type := {
  title : jsstring;
  buttons_disabled : bool;
  tag_chips : list jsstring;
  no_tags_yet : bool;
  summary_box : jsstring
}.

(** The JSX returned by the component; [None] is the "Loading" placeholder
    shown while there is no document. *)
Definition render (st : State) : option View :=
  match doc st with
  | None => None
  | Some d =>
      Some {| title := Document.filename d;
              buttons_disabled := loading st;
              tag_chips := match Document.tags d with
                           | Some l => l
                           | None => []
                           end;
              no_tags_yet := match Document.tags d with
                             | None => true
                             | Some l => (Z.of_nat (List.length l) =? 0)%Z
                             end;
              summary_box := match Document.summary d with
                             | Some s => if truthy s then s else js "No summary yet"
                             | None => js "No summary yet"
                             end |}
  end.

Section Component.

Variable NEXT_PUBLIC_API_URL : jsstring.

(** [params.id] *)
Variable id : jsstring.

Definition tagPath : jsstring := js "/documents/" ++ id ++ js "/tag".

Definition summarizePath : jsstring := js "/documents/" ++ id ++ js "/summarize".

Definition triggerRequest (path : jsstring) : Request :=
  {| method := POST;
     url := NEXT_PUBLIC_API_URL ++ path;
     headers := [];
     body := NoBody |}.

(** [trigger(path)]; the body of the response is not read. *)
Definition trigger (path : jsstring) (net : FetchOutcome unit) : M State unit :=
  setLoading true ;;
  _ <- fetch (triggerRequest path) net ;;
  setLoading false ;;
  emit (SetTimeout 1200).

End Component.

End DocPage.

(* ================================================================== *)
(** ** The retrieval and answer service behind [/search] and [/qa] *)
(* ================================================================== *)

Module Service.

Import SearchPage ChatPage.

(** Modelled from the spec: the service code (the FastAPI routes and the
    worker jobs) is not among the sources.  A Chunk of the data model,
    joined with the file name of the document that owns it. *)
Record Chunk : Type := {
  id : Z;
  document_id : Z;
  chunk_index : Z;
  text : jsstring;
  filename : jsstring
}.

(** Modelled from the spec: a retrieved chunk with its similarity score;
    the retrieval code is not among the sources. *)
Record Hit : Type := {
  chunk : Chunk;
  score : Q
}.

(** Modelled from the spec: the outcome of [search], which tells an index
    without embedded documents apart from a ranked list; the service code is
    not among the sources. *)
Inductive SearchResult : Type :=
| EmptyIndexError
| Ranked (hits : list Hit).

(** Modelled from the spec: the error kinds of [answer]; the service code
    is not among the sources. *)
Inductive AnswerError : Type :=
| GenerationUnavailableError.

(** Modelled from the spec: the value of a successful [answer] call; the
    service code is not among the sources. *)
Record Answer : Type := {
  answer_text : jsstring;
  answer_citations : list Citation.t;
  context_hits : list Hit
}.

(** Modelled from the spec: insertion into a list ranked by non-increasing
    score, the new hit going before the hits it ties with; the ranking code
    is not among the sources. *)
Fixpoint insertRanked (h : Hit) (l : list Hit) : list Hit :=
  match l with
  | [] => [h]
  | x :: r =>
      if Qle_bool (score x) (score h) then h :: x :: r
      else x :: insertRanked h r
  end.

(** Modelled from the spec: ranking by descending similarity score; the
    ranking code is not among the sources. *)
Definition rank (l : list Hit) : list Hit :=
  fold_right insertRanked [] l.

(** Modelled from the spec: does a citation name this retrieved chunk?  The
    grounding check is not among the sources. *)
Definition cites (c : Citation.t) (h : Hit) : bool :=
  (Citation.document_id c =? document_id (chunk h))%Z
  && (Citation.chunk_index c =? chunk_index (chunk h))%Z.

Section Capabilities.

(** Modelled from the spec: the embedder and the vector index, an external
    capability that scores a chunk against a query. *)
Variable similarity : jsstring -> Chunk -> Q.

(** Modelled from the spec: the size of a chunk text in the unit that
    [max_tokens] counts, fixed by the external language model. *)
Variable tokenCount : jsstring -> Z.

(** Modelled from the spec: the preview of a chunk text shown with a hit;
    the code that cuts it is not among the sources. *)
Variable previewOf : jsstring -> jsstring.

(** Modelled from the spec: the local language model, an external
    capability; [None] when it is unreachable.  It returns the answer text
    and the citations it produced. *)
Variable generate : jsstring -> list Hit -> Z -> option (jsstring * list Citation.t).

(** Modelled from the spec: [search(query, k)], the [k] nearest chunks in
    descending order of similarity; the service code is not among the
    sources. *)
Definition search (query : jsstring) (k : Z) (index : list Chunk) : SearchResult :=
  match index with
  | [] => EmptyIndexError
  | _ :: _ =>
      Ranked (firstn (Z.to_nat k)
                (rank (map (fun c => {| chunk := c; score := similarity query c |}) index)))
  end.

(** Modelled from the spec: an empty index yields zero results rather than
    a fault; the service code is not among the sources. *)
Definition retrieved (r : SearchResult) : list Hit :=
  match r with
  | EmptyIndexError => []
  | Ranked hits => hits
  end.

(** Modelled from the spec: the context window, the retrieved chunks in rank
    order while their total size stays within [max_tokens]; the service code
    is not among the sources. *)
Fixpoint contextWindow (budget : Z) (hits : list Hit) : list Hit :=
  match hits with
  | [] => []
  | h :: r =>
      if (tokenCount (text (chunk h)) <=? budget)%Z
      then h :: contextWindow (budget - tokenCount (text (chunk h))) r
      else []
  end.

(** Modelled from the spec: [answer(query, k, max_tokens)].  Retrieval as in
    [search], generation over the context window, and every citation of a
    chunk outside the context stripped; the service code is not among the
    sources. *)
Definition answer (query : jsstring) (k max_tokens : Z) (index : list Chunk)
    : AnswerError + Answer :=
  let hits := retrieved (search query k index) in
  let context := contextWindow max_tokens hits in
  match generate query context max_tokens with
  | None => inl GenerationUnavailableError
  | Some (text, cited) =>
      inr {| answer_text := text;
             answer_citations := filter (fun c => existsb (cites c) context) cited;
             context_hits := hits |}
  end.

(** Modelled from the spec: one element of [results] in the body of
    [POST /search]; the route is not among the sources. *)
Definition chunkResult (h : Hit) : ChunkResult.t :=
  {| ChunkResult.id := id (chunk h);
     ChunkResult.text := text (chunk h);
     ChunkResult.chunk_index := chunk_index (chunk h);
     ChunkResult.document_id := document_id (chunk h);
     ChunkResult.filename := filename (chunk h);
     ChunkResult.similarity_score := score h |}.

(** Modelled from the spec: the body of [POST /search]; the route is not
    among the sources. *)
Definition searchBody (query : jsstring) (k : Z) (index : list Chunk) : SearchResponse.t :=
  let hits := retrieved (search query k index) in
  {| SearchResponse.query := query;
     SearchResponse.results := map chunkResult hits;
     SearchResponse.total_results := Z.of_nat (List.length hits) |}.

(** Modelled from the spec: the response of [POST /search]; the route is not
    among the sources. *)
Definition searchEndpoint (query : jsstring) (k : Z) (index : list Chunk)
    : Response SearchResponse.t :=
  {| status := 200; statusText := js "OK"; json := inr (searchBody query k index) |}.

(** Modelled from the spec: one element of [hits] in the body of
    [POST /qa]; the route is not among the sources. *)
Definition contextHit (h : Hit) : ContextHit.t :=
  {| ContextHit.document_id := document_id (chunk h);
     ContextHit.chunk_index := chunk_index (chunk h);
     ContextHit.score := score h;
     ContextHit.preview := previewOf (text (chunk h)) |}.

(** Modelled from the spec: the body of [POST /qa].  When generation is
    unavailable the route falls back to the raw hits and leaves the answer
    out; the route is not among the sources. *)
Definition qaBody (query : jsstring) (k max_tokens : Z) (index : list Chunk) : QAResponse.t :=
  match answer query k max_tokens index with
  | inr a =>
      {| QAResponse.answer := Some (answer_text a);
         QAResponse.citations := Some (answer_citations a);
         QAResponse.hits := Some (map contextHit (context_hits a)) |}
  | inl GenerationUnavailableError =>
      {| QAResponse.answer := None;
         QAResponse.citations := Some [];
         QAResponse.hits :=
           Some (map contextHit (retrieved (search query k index))) |}
  end.

(** Modelled from the spec: the response of [POST /qa]; the route is not
    among the sources. *)
Definition qaEndpoint (query : jsstring) (k max_tokens : Z) (index : list Chunk)
    : Response QAResponse.t :=
  {| status := 200; statusText := js "OK";
     json := inr (qaBody query k max_tokens index) |}.

End Capabilities.

(** *** The bodies of section 6, as JSON *)

(** Modelled from the spec: [{id, text, chunk_index, document_id, filename,
    similarity_score}]; the route is not among the sources. *)
Definition chunkResultJSON (r : ChunkResult.t) : JSON :=
  JObj [(js "id", JInt (ChunkResult.id r));
        (js "text", JStr (ChunkResult.text r));
        (js "chunk_index", JInt (ChunkResult.chunk_index r));
        (js "document_id", JInt (ChunkResult.document_id r));
        (js "filename", JStr (ChunkResult.filename r));
        (js "similarity_score", JNum (ChunkResult.similarity_score r))].

(** Modelled from the spec: [{query, results, total_results}]; the route is
    not among the sources. *)
Definition searchResponseJSON (r : SearchResponse.t) : JSON :=
  JObj [(js "query", JStr (SearchResponse.query r));
        (js "results", JArr (map chunkResultJSON (SearchResponse.results r)));
        (js "total_results", JInt (SearchResponse.total_results r))].

(** Modelled from the spec: [{document_id, chunk_index}]; the route is not
    among the sources. *)
Definition citationJSON (c : Citation.t) : JSON :=
  JObj [(js "document_id", JInt (Citation.document_id c));
        (js "chunk_index", JInt (Citation.chunk_index c))].

(** Modelled from the spec: [{document_id, chunk_index, score, preview}];
    the route is not among the sources. *)
Definition contextHitJSON (h : ContextHit.t) : JSON :=
  JObj [(js "document_id", JInt (ContextHit.document_id h));
        (js "chunk_index", JInt (ContextHit.chunk_index h));
        (js "score", JNum (ContextHit.score h));
        (js "preview", JStr (ContextHit.preview h))].

(** Modelled from the spec: [{answer, citations, hits}]; the route is not
    among the sources. *)
Definition qaResponseJSON (answer : jsstring) (citations : list Citation.t)
    (hits : list ContextHit.t) : JSON :=
  JObj [(js "answer", JStr answer);
        (js "citations", JArr (map citationJSON citations));
        (js "hits", JArr (map contextHitJSON hits))].

(** Modelled from the spec: the request body [{query, k}] of
    [POST /search]; the route is not among the sources. *)
Definition searchRequestJSON (query : jsstring) (k : Z) : JSON :=
  JObj [(js "query", JStr query); (js "k", JInt k)].

(** Modelled from the spec: the request body [{query, k, max_tokens}] of
    [POST /qa]; the route is not among the sources. *)
Definition qaRequestJSON (query : jsstring) (k max_tokens : Z) : JSON :=
  JObj [(js "query", JStr query); (js "k", JInt k);
        (js "max_tokens", JInt max_tokens)].

(** Modelled from the spec: the body [{status, version}] of
    [GET /healthz]; the route is not among the sources. *)
Definition healthzJSON (status version : jsstring) : JSON :=
  JObj [(js "status", JStr status); (js "version", JStr version)].

(** Modelled from the spec: the path of the health route; the route is
    not among the sources. *)
Definition healthzPath : jsstring := js "/healthz".

(** Modelled from the spec: the property names of the body of
    [GET /healthz]; the route is not among the sources. *)
Definition healthzFields : list jsstring := [js "status"; js "version"].

(** Modelled from the spec: the terminal states of the document state
    machine, [parsed_empty], [error] and [done]; the worker that advances a
    document is not among the sources. *)
Definition terminal (status : jsstring) : bool :=
  streq status (js "parsed_empty") || streq status (js "error")
  || streq status (js "done").

End Service.

(* ================================================================== *)
(** ** Definitions used to state and run the properties *)
(* ================================================================== *)

(** [Canonicalize] on the ASCII letters, the case table used to run the
    examples below. *)
Definition asciiUpper (c : char) : char :=
  if ((97 <=? c) && (c <=? 122))%N then (c - 32)%N else c.

(** Every code unit of the string is white space (the empty string too). *)
Definition blank (s : jsstring) : bool := forallb isWhiteSpace s.

(** The tokens of a query in the sense of "separated by white space": the
    maximal runs of code units that are not white space. *)
Fixpoint whitespaceRuns (s : jsstring) : list jsstring :=
  match s with
  | [] => [[]]
  | c :: r =>
      if isWhiteSpace c then [] :: whitespaceRuns r
      else match whitespaceRuns r with
           | [] => [[c]]
           | t :: ts => (c :: t) :: ts
           end
  end.

Definition whitespaceTokens (s : jsstring) : list jsstring :=
  filter truthy (whitespaceRuns s).

(** A token free of regular-expression syntax characters. *)
Definition patternText (t : jsstring) : bool :=
  forallb (fun c => negb (RegExp.isSyntaxCharacter c)) t.

(** The opening and closing tags that [markTemplate] puts around [$1]. *)
Definition markOpen : jsstring :=
  js "<mark class=" ++ [34%N] ++ js "bg-yellow-200 px-1 rounded" ++ [34%N] ++ js ">".

Definition markClose : jsstring := js "</mark>".

Definition marked (seg : RegExp.Segment) : jsstring :=
  match seg with
  | RegExp.Unmatched c => [c]
  | RegExp.Matched m => markOpen ++ m ++ markClose
  end.

(** The segments cut the text at the matches of the pieces: they spell the
    text, each match is the match of the first piece, in query order, that
    matches at its position, and no piece matches at the position of a code
    unit left outside the matches. *)
Definition wrapsMatches (canonicalize : char -> char) (tokens : list jsstring)
    (text : jsstring) (segs : list RegExp.Segment) : Prop :=
  RegExp.subject segs = text
  /\ (forall pre m post,
         segs = pre ++ RegExp.Matched m :: post ->
         RegExp.firstMatch canonicalize tokens (m ++ RegExp.subject post)
         = Some (List.length m))
  /\ (forall pre c post,
         segs = pre ++ RegExp.Unmatched c :: post ->
         RegExp.firstMatch canonicalize tokens (c :: RegExp.subject post) = None).

(** One citation is grounded in a list of context hits when some hit has its
    document id and chunk index. *)
Definition groundedIn (hits : list ChatPage.ContextHit.t) (c : ChatPage.Citation.t) : Prop :=
  exists h, In h hits
            /\ ChatPage.ContextHit.document_id h = ChatPage.Citation.document_id c
            /\ ChatPage.ContextHit.chunk_index h = ChatPage.Citation.chunk_index c.

(** Each element's score is at least the score of the next one. *)
Definition nonIncreasing (rs : list SearchPage.ChunkResult.t) : Prop :=
  forall i a b,
    nth_error rs i = Some a ->
    nth_error rs (S i) = Some b ->
    (SearchPage.ChunkResult.similarity_score b
       <= SearchPage.ChunkResult.similarity_score a)%Q.

(** [a] may stand before [b] in a ranking. *)
Definition outranks (a b : Service.Hit) : Prop :=
  (Service.score b <= Service.score a)%Q.

(** A successful response carrying [body]. *)
Definition okResponse {A : Type} (body : A) : FetchOutcome A :=
  Resolved {| status := 200; statusText := js "OK"; json := inr body |}.

(** The status line [poll] shows for a fetched document. *)
Definition statusLine (j : UploadPage.DocumentStatus.t) : jsstring :=
  js "Status: " ++ UploadPage.DocumentStatus.status j ++ js " " ++ [8212%N]
     ++ js " chunks: " ++ numberToString (UploadPage.DocumentStatus.chunks j).

(** The doubles that the literals [0.8], [0.6] and [0.4] of the source
    denote, by their exact values. *)
Definition double08 : Q := 3602879701896397 # 4503599627370496.
Definition double06 : Q := 5404319552844595 # 9007199254740992.
Definition double04 : Q := 3602879701896397 # 9007199254740992.

(** The string with every space replaced by a vertical bar. *)
Definition spacesToBars (s : jsstring) : jsstring :=
  map (fun c => if (c =? 32)%N then 124%N else c) s.

(** Did the request of the ingest page succeed: a response in the 2xx range
    whose body parsed. *)
Definition ingestSucceeded (net : FetchOutcome IngestPage.IngestResponse.t) : bool :=
  match net with
  | Rejected _ => false
  | Resolved r => match json r with inr _ => ok r | inl _ => false end
  end.

(** The body of a response when it parsed. *)
Definition parsedBody {A : Type} (net : FetchOutcome A) : option A :=
  match net with
  | Rejected _ => None
  | Resolved r => match json r with inr a => Some a | inl _ => None end
  end.

(** What was thrown by a fetch whose promise rejected or whose body did not
    parse. *)
Definition transportFailure {A : Type} (net : FetchOutcome A) : option Thrown :=
  match net with
  | Rejected e => Some e
  | Resolved r => match json r with inr _ => None | inl e => Some e end
  end.

(* ================================================================== *)
(** ** Strings *)
(* ================================================================== *)

Lemma streq_true_iff (a b : jsstring) : streq a b = true <-> a = b.
Proof.
  revert b; induction a as [|x a IH]; intros [|y b]; simpl; split;
    try congruence; try reflexivity.
  - intros H. apply andb_true_iff in H as [Hx Hab].
    apply N.eqb_eq in Hx. apply IH in Hab. now subst.
  - intros H. injection H as -> ->.
    apply andb_true_iff; split; [apply N.eqb_refl | now apply IH].
Qed.

Lemma trimStart_nil_iff (s : jsstring) : trimStart s = [] <-> blank s = true.
Proof.
  induction s as [|c s IH]; simpl.
  - tauto.
  - destruct (isWhiteSpace c); simpl; [exact IH | split; discriminate].
Qed.

Lemma trimStart_head (s : jsstring) [c r] :
  trimStart s = c :: r -> isWhiteSpace c = false.
Proof.
  induction s as [|x s IH]; simpl; [discriminate|].
  destruct (isWhiteSpace x) eqn:E; [exact IH|].
  intros H; injection H as -> _; exact E.
Qed.

Lemma trimStart_fixed [c] r : isWhiteSpace c = false -> trimStart (c :: r) = c :: r.
Proof. intros H; simpl; now rewrite H. Qed.

Lemma trimStart_snoc (l : jsstring) c :
  isWhiteSpace c = false -> trimStart (l ++ [c]) = trimStart l ++ [c].
Proof.
  intros Hc; induction l as [|x l IH]; simpl.
  - now rewrite Hc.
  - destruct (isWhiteSpace x); [exact IH | reflexivity].
Qed.

Lemma trimEnd_head [c] r :
  isWhiteSpace c = false -> exists r', trimEnd (c :: r) = c :: r'.
Proof.
  intros Hc. unfold trimEnd; simpl.
  rewrite (trimStart_snoc _ _ Hc), rev_app_distr; simpl. eauto.
Qed.

Lemma trimEnd_idempotent (s : jsstring) : trimEnd (trimEnd s) = trimEnd s.
Proof.
  unfold trimEnd. rewrite rev_involutive. f_equal.
  destruct (trimStart (rev s)) as [|c r] eqn:E; [reflexivity|].
  apply trimStart_fixed. eapply trimStart_head; eauto.
Qed.

(** [trim] is idempotent: a trimmed string has nothing left to strip. *)
Lemma trim_idempotent (s : jsstring) : trim (trim s) = trim s.
Proof.
  unfold trim.
  destruct (trimStart s) as [|c r] eqn:E; [reflexivity|].
  pose proof (trimStart_head _ E) as Hc.
  destruct (trimEnd_head r Hc) as [r' Hr'].
  rewrite Hr', (trimStart_fixed _ Hc), <- Hr'. apply trimEnd_idempotent.
Qed.

(** [!s.trim()] holds exactly for the empty and the white-space-only
    strings. *)
Lemma trim_nil_iff (s : jsstring) : trim s = [] <-> blank s = true.
Proof.
  unfold trim. split.
  - intros H. destruct (trimStart s) as [|c r] eqn:E.
    + now apply trimStart_nil_iff.
    + pose proof (trimStart_head _ E) as Hc.
      destruct (trimEnd_head r Hc) as [r' Hr']. congruence.
  - intros H. apply trimStart_nil_iff in H. now rewrite H.
Qed.

Lemma trim_truthy (s : jsstring) : truthy (trim s) = negb (blank s).
Proof.
  destruct (blank s) eqn:E; simpl.
  - apply trim_nil_iff in E. now rewrite E.
  - destruct (trim s) eqn:T; [|reflexivity].
    apply trim_nil_iff in T. congruence.
Qed.

Lemma split_not_nil sep (s : jsstring) : split sep s <> [].
Proof.
  induction s as [|c s IH]; simpl; [discriminate|].
  destruct (c =? sep)%N; [discriminate|].
  destruct (split sep s); discriminate.
Qed.

(* ================================================================== *)
(** ** JSON bodies *)
(* ================================================================== *)

Lemma asInt_JInt (n : Z) : asInt (Some (JInt n)) = Some n.
Proof.
  unfold asInt, JInt, inject_Z, Qred; simpl Qnum; simpl Qden.
  pose proof (Z.ggcd_gcd n 1) as Hg.
  pose proof (Z.ggcd_correct_divisors n 1) as Hd.
  destruct (Z.ggcd n 1) as [g [a b]]; simpl in *.
  rewrite Z.gcd_1_r in Hg; subst g.
  destruct Hd as [Ha Hb].
  replace a with n by lia. replace b with 1%Z by lia. reflexivity.
Qed.

Lemma traverse_map {A B : Type} (enc : A -> B) (dec : B -> option A) (l : list A) :
  (forall a, dec (enc a) = Some a) -> traverse dec (map enc l) = Some l.
Proof.
  intros H; induction l as [|a l IH]; simpl; [reflexivity|].
  now rewrite H, IH.
Qed.

(** Decides the comparisons of property names met by a property read. *)
Ltac read_properties :=
  unfold get; cbn [assoc];
  repeat match goal with
         | |- context [streq ?a ?b] =>
             let v := eval vm_compute in (streq a b) in
             change (streq a b) with v
         end;
  cbv iota.

Lemma chunkResult_roundtrip (r : SearchPage.ChunkResult.t) :
  SearchPage.ChunkResult.ofJSON (Service.chunkResultJSON r) = Some r.
Proof.
  destruct r. unfold SearchPage.ChunkResult.ofJSON, Service.chunkResultJSON.
  read_properties. rewrite !asInt_JInt. reflexivity.
Qed.

Lemma citation_roundtrip (c : ChatPage.Citation.t) :
  ChatPage.Citation.ofJSON (Service.citationJSON c) = Some c.
Proof.
  destruct c. unfold ChatPage.Citation.ofJSON, Service.citationJSON.
  read_properties. rewrite !asInt_JInt. reflexivity.
Qed.

Lemma contextHit_roundtrip (h : ChatPage.ContextHit.t) :
  ChatPage.ContextHit.ofJSON (Service.contextHitJSON h) = Some h.
Proof.
  destruct h. unfold ChatPage.ContextHit.ofJSON, Service.contextHitJSON.
  read_properties. rewrite !asInt_JInt. reflexivity.
Qed.

(* ================================================================== *)
(** ** Traces of the submit handlers *)
(* ================================================================== *)

(** Runs a handler whose guard has been decided: the monad operations are
    unfolded and the network answer is split into its cases. *)
Ltac run_handler :=
  cbv beta delta [bind emit ret throw modify tryCatch finally fetch readJson
                  trace finalState outcome requests] in *;
  simpl in *.

Lemma handleSearch_blank api net (st : SearchPage.State) :
  blank (SearchPage.query st) = true ->
  SearchPage.handleSearch api net st = (inr tt, st, [PreventDefault]).
Proof.
  intros H. unfold SearchPage.handleSearch.
  unfold bind at 1. simpl. rewrite trim_truthy, H. reflexivity.
Qed.

Lemma handleSearch_trace api net (st : SearchPage.State) :
  blank (SearchPage.query st) = false ->
  trace (SearchPage.handleSearch api net st)
  = [PreventDefault; Fetch (SearchPage.searchRequest api (SearchPage.query st))].
Proof.
  intros H. unfold SearchPage.handleSearch.
  unfold bind at 1. simpl emit. cbv iota beta.
  rewrite trim_truthy, H. simpl negb. cbv iota.
  destruct net as [e | r]; [reflexivity|].
  unfold SearchPage.setLoading, SearchPage.setError, SearchPage.setResults.
  run_handler.
  destruct (ok r); simpl; [|reflexivity].
  destruct (json r); reflexivity.
Qed.

Lemma ask_returns_early api net (st : ChatPage.State) :
  blank (ChatPage.query st) = true \/ ChatPage.loading st = true ->
  ChatPage.ask api net st = (inr tt, st, [PreventDefault]).
Proof.
  intros H. unfold ChatPage.ask.
  unfold bind at 1. simpl. rewrite trim_truthy.
  destruct H as [H | H]; rewrite H; [reflexivity|].
  now rewrite orb_true_r.
Qed.

Lemma ask_trace api net (st : ChatPage.State) :
  blank (ChatPage.query st) = false ->
  ChatPage.loading st = false ->
  trace (ChatPage.ask api net st)
  = [PreventDefault; Fetch (ChatPage.qaRequest api (ChatPage.query st))].
Proof.
  intros H L. unfold ChatPage.ask.
  unfold bind at 1. simpl emit. cbv iota beta.
  rewrite trim_truthy, H, L. simpl negb. simpl orb. cbv iota.
  destruct net as [e | r]; [reflexivity|].
  unfold ChatPage.setLoading, ChatPage.setError, ChatPage.setAnswer,
    ChatPage.setCitations, ChatPage.setHits.
  run_handler.
  destruct (ok r); simpl; [|reflexivity].
  destruct (json r); reflexivity.
Qed.

Lemma handleSubmit_empty api net (st : IngestPage.State) :
  IngestPage.url st = [] ->
  IngestPage.handleSubmit api net st = (inr tt, st, [PreventDefault]).
Proof.
  intros H. unfold IngestPage.handleSubmit.
  unfold bind at 1. simpl. rewrite H. reflexivity.
Qed.

Lemma onSubmit_no_file api net (st : UploadPage.State) :
  UploadPage.file st = None ->
  UploadPage.onSubmit api net st = (inr None, st, [PreventDefault]).
Proof.
  intros H. unfold UploadPage.onSubmit.
  unfold bind at 1. simpl. rewrite H. reflexivity.
Qed.

(** What a completed [handleSearch] leaves behind when the response is
    successful and its body parses. *)
Lemma handleSearch_success api (st : SearchPage.State) r data :
  blank (SearchPage.query st) = false ->
  ok r = true ->
  json r = inr data ->
  SearchPage.handleSearch api (Resolved r) st
  = (inr tt,
     {| SearchPage.query := SearchPage.query st;
        SearchPage.results := Some data;
        SearchPage.loading := false;
        SearchPage.error := [] |},
     [PreventDefault; Fetch (SearchPage.searchRequest api (SearchPage.query st))]).
Proof.
  intros H Hok Hjson. unfold SearchPage.handleSearch.
  unfold bind at 1. simpl emit. cbv iota beta.
  rewrite trim_truthy, H. simpl negb. cbv iota.
  unfold SearchPage.setLoading, SearchPage.setError, SearchPage.setResults.
  run_handler. rewrite Hok. simpl. rewrite Hjson. reflexivity.
Qed.

(** What a completed [ask] leaves behind when the response is successful and
    its body parses. *)
Lemma ask_success api (st : ChatPage.State) r data :
  blank (ChatPage.query st) = false ->
  ChatPage.loading st = false ->
  ok r = true ->
  json r = inr data ->
  ChatPage.ask api (Resolved r) st
  = (inr tt,
     {| ChatPage.query := ChatPage.query st;
        ChatPage.loading := false;
        ChatPage.answer := ChatPage.stringOrEmpty (ChatPage.QAResponse.answer data);
        ChatPage.citations := ChatPage.arrayOrEmpty (ChatPage.QAResponse.citations data);
        ChatPage.hits := ChatPage.arrayOrEmpty (ChatPage.QAResponse.hits data);
        ChatPage.error := [] |},
     [PreventDefault; Fetch (ChatPage.qaRequest api (ChatPage.query st))]).
Proof.
  intros H L Hok Hjson. unfold ChatPage.ask.
  unfold bind at 1. simpl emit. cbv iota beta.
  rewrite trim_truthy, H, L. simpl negb. simpl orb. cbv iota.
  unfold ChatPage.setLoading, ChatPage.setError, ChatPage.setAnswer,
    ChatPage.setCitations, ChatPage.setHits.
  run_handler. rewrite Hok. simpl. rewrite Hjson. reflexivity.
Qed.

(** [ask] catches whatever its body throws. *)
Lemma ask_never_throws api net (st : ChatPage.State) :
  outcome (ChatPage.ask api net st) = inr tt.
Proof.
  destruct (blank (ChatPage.query st)) eqn:H.
  { now rewrite ask_returns_early by auto. }
  destruct (ChatPage.loading st) eqn:L.
  { now rewrite ask_returns_early by auto. }
  unfold ChatPage.ask.
  unfold bind at 1. simpl emit. cbv iota beta.
  rewrite trim_truthy, H, L. simpl negb. simpl orb. cbv iota.
  destruct net as [e | r]; [reflexivity|].
  unfold ChatPage.setLoading, ChatPage.setError, ChatPage.setAnswer,
    ChatPage.setCitations, ChatPage.setHits.
  run_handler.
  destruct (ok r); simpl; [|reflexivity].
  destruct (json r); reflexivity.
Qed.

Lemma requests_of_submit (req : Request) :
  requests [PreventDefault; Fetch req] = [req].
Proof. reflexivity. Qed.

(* ================================================================== *)
(** ** Submitting a blank form *)
(* ================================================================== *)

(** C9.  A submission whose required input is missing returns at once: on
    the search and chat pages when the query is empty or only white space,
    on the ingest page when the URL is empty, on the upload page when no
    file is selected.  The handler then completes normally, the page state
    is the state it started from, and the only effect in its trace is the
    [preventDefault] on the form event; no request is issued. *)
Theorem blank_submit_changes_nothing :
  (forall api net st,
      blank (SearchPage.query st) = true ->
      SearchPage.handleSearch api net st = (inr tt, st, [PreventDefault]))
  /\ (forall api net st,
         blank (ChatPage.query st) = true ->
         ChatPage.ask api net st = (inr tt, st, [PreventDefault]))
  /\ (forall api net st,
         IngestPage.url st = [] ->
         IngestPage.handleSubmit api net st = (inr tt, st, [PreventDefault]))
  /\ (forall api net st,
         UploadPage.file st = None ->
         UploadPage.onSubmit api net st = (inr None, st, [PreventDefault])).
Proof.
  repeat split; intros.
  - now apply handleSearch_blank.
  - apply ask_returns_early; now left.
  - now apply handleSubmit_empty.
  - now apply onSubmit_no_file.
Qed.

Lemma blank_submit_changes_nothing_witness :
  let api := js "http://localhost:8000" in
  let s := {| SearchPage.query := js "   "; SearchPage.results := None;
              SearchPage.loading := false; SearchPage.error := js "old" |} in
  let c := {| ChatPage.query := [9%N; 32%N]; ChatPage.loading := false;
              ChatPage.answer := js "kept"; ChatPage.citations := [];
              ChatPage.hits := []; ChatPage.error := [] |} in
  let i := IngestPage.initial in
  let u := UploadPage.initial in
  (blank (SearchPage.query s) = true
   /\ SearchPage.handleSearch api (Rejected OtherValue) s = (inr tt, s, [PreventDefault]))
  /\ (blank (ChatPage.query c) = true
      /\ ChatPage.ask api (Rejected OtherValue) c = (inr tt, c, [PreventDefault]))
  /\ (IngestPage.url i = []
      /\ IngestPage.handleSubmit api (Rejected OtherValue) i = (inr tt, i, [PreventDefault]))
  /\ (UploadPage.file u = None
      /\ UploadPage.onSubmit api (Rejected OtherValue) u = (inr None, u, [PreventDefault])).
Proof.
  intros api s c i u.
  destruct blank_submit_changes_nothing as [H1 [H2 [H3 H4]]].
  split; [|split; [|split]].
  - split; [reflexivity | apply H1; reflexivity].
  - split; [reflexivity | apply H2; reflexivity].
  - split; [reflexivity | apply H3; reflexivity].
  - split; [reflexivity | apply H4; reflexivity].
Defined.

(* ================================================================== *)
(** ** Request and response bodies of [/search] and [/qa] *)
(* ================================================================== *)

(** C7.  Every request that [handleSearch] issues is a [POST] to
    [<API>/search] whose body is the object [{query, k}] of the interface:
    [query] is the trimmed input, which is not empty and has nothing left to
    trim, and [k] is 10.  A non-blank query issues exactly that one request.
    A body [{query, results: [{id, text, chunk_index, document_id, filename,
    similarity_score}], total_results}] is read back, property by property,
    into the page's [SearchResponse]. *)
Theorem search_request_and_response_shape :
  (forall api net st req,
      In req (requests (trace (SearchPage.handleSearch api net st))) ->
      let q := trim (SearchPage.query st) in
      q <> [] /\ trim q = q
      /\ method req = POST
      /\ url req = api ++ js "/search"
      /\ body req = JsonBody (Service.searchRequestJSON q 10))
  /\ (forall api net st,
         blank (SearchPage.query st) = false ->
         requests (trace (SearchPage.handleSearch api net st))
         = [SearchPage.searchRequest api (SearchPage.query st)])
  /\ (forall r,
         SearchPage.SearchResponse.ofJSON (Service.searchResponseJSON r) = Some r
         /\ keys (Service.searchResponseJSON r)
            = [js "query"; js "results"; js "total_results"])
  /\ (forall c,
         keys (Service.chunkResultJSON c)
         = [js "id"; js "text"; js "chunk_index"; js "document_id";
            js "filename"; js "similarity_score"]).
Proof.
  split; [|split; [|split]].
  - intros api net st req Hin q.
    destruct (blank (SearchPage.query st)) eqn:B.
    + rewrite handleSearch_blank in Hin by assumption. destruct Hin.
    + rewrite handleSearch_trace, requests_of_submit in Hin by assumption.
      destruct Hin as [<- | []].
      repeat split; try reflexivity.
      * intros E. apply trim_nil_iff in E. congruence.
      * apply trim_idempotent.
  - intros api net st B. now rewrite handleSearch_trace.
  - intros r; split; [|reflexivity].
    destruct r as [q rs n].
    unfold SearchPage.SearchResponse.ofJSON, Service.searchResponseJSON.
    read_properties.
    cbn [SearchPage.SearchResponse.query SearchPage.SearchResponse.results
         SearchPage.SearchResponse.total_results asString asArray].
    rewrite asInt_JInt, (traverse_map _ _ _ chunkResult_roundtrip). reflexivity.
  - intros c; reflexivity.
Qed.

Lemma search_request_and_response_shape_witness :
  let api := js "http://localhost:8000" in
  let st := {| SearchPage.query := js "  vector index "; SearchPage.results := None;
               SearchPage.loading := false; SearchPage.error := [] |} in
  let req := SearchPage.searchRequest api (SearchPage.query st) in
  In req (requests (trace (SearchPage.handleSearch api (Rejected OtherValue) st)))
  /\ body req = JsonBody (Service.searchRequestJSON (js "vector index") 10).
Proof.
  intros api st req.
  assert (Hin : In req (requests (trace (SearchPage.handleSearch api (Rejected OtherValue) st))))
    by (left; reflexivity).
  split; [exact Hin|].
  exact (proj2 (proj2 (proj2 (proj2
           (proj1 search_request_and_response_shape api (Rejected OtherValue) st req Hin))))).
Defined.

(** C8.  Every request that [ask] issues is a [POST] to [<API>/qa] whose
    body is the object [{query, k, max_tokens}] of the interface: [query] is
    the trimmed input, which is not empty and has nothing left to trim, [k]
    is 6 and [max_tokens] is 384.  A non-blank query submitted while no
    request is pending issues exactly that one request.  A body [{answer,
    citations: [{document_id, chunk_index}], hits: [{document_id,
    chunk_index, score, preview}]}] is read back, property by property, into
    the page's [QAResponse]. *)
Theorem qa_request_and_response_shape :
  (forall api net st req,
      In req (requests (trace (ChatPage.ask api net st))) ->
      let q := trim (ChatPage.query st) in
      q <> [] /\ trim q = q
      /\ method req = POST
      /\ url req = api ++ js "/qa"
      /\ body req = JsonBody (Service.qaRequestJSON q 6 384))
  /\ (forall api net st,
         blank (ChatPage.query st) = false ->
         ChatPage.loading st = false ->
         requests (trace (ChatPage.ask api net st))
         = [ChatPage.qaRequest api (ChatPage.query st)])
  /\ (forall answer citations hits,
         ChatPage.QAResponse.ofJSON (Service.qaResponseJSON answer citations hits)
         = Some {| ChatPage.QAResponse.answer := Some answer;
                   ChatPage.QAResponse.citations := Some citations;
                   ChatPage.QAResponse.hits := Some hits |}
         /\ keys (Service.qaResponseJSON answer citations hits)
            = [js "answer"; js "citations"; js "hits"])
  /\ (forall c, keys (Service.citationJSON c) = [js "document_id"; js "chunk_index"])
  /\ (forall h,
         keys (Service.contextHitJSON h)
         = [js "document_id"; js "chunk_index"; js "score"; js "preview"]).
Proof.
  split; [|split; [|split; [|split]]].
  - intros api net st req Hin q.
    destruct (blank (ChatPage.query st)) eqn:B.
    { rewrite ask_returns_early in Hin by auto. destruct Hin. }
    destruct (ChatPage.loading st) eqn:L.
    { rewrite ask_returns_early in Hin by auto. destruct Hin. }
    rewrite ask_trace, requests_of_submit in Hin by assumption.
    destruct Hin as [<- | []].
    repeat split; try reflexivity.
    + intros E. apply trim_nil_iff in E. congruence.
    + apply trim_idempotent.
  - intros api net st B L. now rewrite ask_trace.
  - intros a cs hs; split; [|reflexivity].
    unfold ChatPage.QAResponse.ofJSON, Service.qaResponseJSON.
    read_properties.
    cbn [ChatPage.QAResponse.optional asString asArray option_map].
    rewrite (traverse_map _ _ _ citation_roundtrip),
      (traverse_map _ _ _ contextHit_roundtrip). reflexivity.
  - intros c; reflexivity.
  - intros h; reflexivity.
Qed.

Lemma qa_request_and_response_shape_witness :
  let api := js "http://localhost:8000" in
  let st := {| ChatPage.query := js " what is a chunk? "; ChatPage.loading := false;
               ChatPage.answer := []; ChatPage.citations := [];
               ChatPage.hits := []; ChatPage.error := [] |} in
  let req := ChatPage.qaRequest api (ChatPage.query st) in
  In req (requests (trace (ChatPage.ask api (Rejected OtherValue) st)))
  /\ body req = JsonBody (Service.qaRequestJSON (js "what is a chunk?") 6 384).
Proof.
  intros api st req.
  assert (Hin : In req (requests (trace (ChatPage.ask api (Rejected OtherValue) st))))
    by (left; reflexivity).
  split; [exact Hin|].
  exact (proj2 (proj2 (proj2 (proj2
           (proj1 qa_request_and_response_shape api (Rejected OtherValue) st req Hin))))).
Defined.

(* ================================================================== *)
(** ** Ranking and grounding in the service *)
(* ================================================================== *)

Section ServiceFacts.

Import Service.

Lemma length_insertRanked h l : List.length (insertRanked h l) = S (List.length l).
Proof.
  induction l as [|x l IH]; simpl; [reflexivity|].
  destruct (Qle_bool (score x) (score h)); simpl; [reflexivity | now rewrite IH].
Qed.

Lemma length_rank l : List.length (rank l) = List.length l.
Proof.
  induction l as [|x l IH]; simpl; [reflexivity|].
  now rewrite length_insertRanked, IH.
Qed.

Lemma insertRanked_HdRel a h l :
  HdRel outranks a l -> outranks a h -> HdRel outranks a (insertRanked h l).
Proof.
  intros Hl Hh. destruct l as [|x l]; simpl.
  - now constructor.
  - destruct (Qle_bool (score x) (score h)); constructor; [assumption|].
    now inversion Hl.
Qed.

Lemma insertRanked_Sorted h l :
  Sorted outranks l -> Sorted outranks (insertRanked h l).
Proof.
  induction l as [|x l IH]; simpl; intros Hs.
  - repeat constructor.
  - destruct (Qle_bool (score x) (score h)) eqn:E.
    + constructor; [assumption|]. constructor. now apply Qle_bool_iff.
    + inversion Hs as [|? ? Hs' Hhd]; subst.
      constructor; [now apply IH|].
      apply insertRanked_HdRel; [assumption|].
      unfold outranks. apply Qlt_le_weak, Qnot_le_lt.
      intros Hle. apply Qle_bool_iff in Hle. congruence.
Qed.

Lemma rank_Sorted l : Sorted outranks (rank l).
Proof.
  induction l as [|x l IH]; simpl; [constructor | now apply insertRanked_Sorted].
Qed.

Lemma firstn_Sorted n l : Sorted outranks l -> Sorted outranks (firstn n l).
Proof.
  revert l; induction n as [|n IH]; intros [|x l] Hs; simpl; try constructor.
  - inversion Hs; subst. now apply IH.
  - inversion Hs as [|? ? _ Hhd]; subst.
    destruct l as [|y l]; [destruct n; constructor|].
    destruct n; simpl; constructor. now inversion Hhd.
Qed.

Lemma Sorted_adjacent l i a b :
  Sorted outranks l ->
  nth_error l i = Some a -> nth_error l (S i) = Some b -> outranks a b.
Proof.
  revert l; induction i as [|i IH]; intros [|x [|y l]] Hs Ha Hb;
    simpl in *; try discriminate.
  - assert (x = a) by congruence. assert (y = b) by congruence. subst a b.
    inversion Hs as [|? ? _ Hhd]; subst. now inversion Hhd.
  - inversion Hs; subst. eapply IH; eauto.
Qed.

Lemma contextWindow_incl tokenCount budget hits h :
  In h (contextWindow tokenCount budget hits) -> In h hits.
Proof.
  revert budget; induction hits as [|x hits IH]; simpl; intros budget; [tauto|].
  destruct (tokenCount (text (chunk x)) <=? budget)%Z; simpl; [|tauto].
  intros [-> | Hin]; [now left | right; eauto].
Qed.

Variable similarity : jsstring -> Chunk -> Q.

Lemma retrieved_Sorted query k index :
  Sorted outranks (retrieved (search similarity query k index)).
Proof.
  destruct index as [|c index]; simpl; [constructor|].
  apply firstn_Sorted, insertRanked_Sorted, rank_Sorted.
Qed.

Lemma retrieved_length query k index :
  List.length (retrieved (search similarity query k index))
  = Nat.min (Z.to_nat k) (List.length index).
Proof.
  destruct index as [|c index].
  - simpl. now rewrite Nat.min_0_r.
  - unfold search, retrieved.
    rewrite length_firstn, length_rank, length_map. reflexivity.
Qed.

End ServiceFacts.

(* ================================================================== *)
(** ** Properties of [/search] and [/qa] *)
(* ================================================================== *)

(** C2.  The results of a search are in non-increasing order of similarity
    score: each result's score is at least the score of the one after it.
    There are never more results than embedded chunks, whatever [k] is (so
    also when [k] exceeds their number): their count is the smaller of [k]
    and the number of chunks, and [total_results] reports it. *)
Theorem search_results_ranked_and_bounded :
  forall similarity query k index,
    let body := Service.searchBody similarity query k index in
    let rs := SearchPage.SearchResponse.results body in
    nonIncreasing rs
    /\ (List.length rs <= List.length index)%nat
    /\ List.length rs = Nat.min (Z.to_nat k) (List.length index)
    /\ SearchPage.SearchResponse.total_results body = Z.of_nat (List.length rs).
Proof.
  intros similarity query k index body rs.
  assert (Hlen : List.length rs = Nat.min (Z.to_nat k) (List.length index)).
  { subst rs body. unfold Service.searchBody; simpl.
    now rewrite length_map, retrieved_length. }
  split; [|split; [|split]].
  - intros i a b Ha Hb. subst rs body. unfold Service.searchBody in Ha, Hb.
    cbn [SearchPage.SearchResponse.results] in Ha, Hb.
    rewrite nth_error_map in Ha, Hb.
    destruct (nth_error _ i) as [ha|] eqn:Ea; [|discriminate].
    destruct (nth_error _ (S i)) as [hb|] eqn:Eb; [|discriminate].
    simpl in Ha, Hb.
    assert (a = Service.chunkResult ha) by congruence.
    assert (b = Service.chunkResult hb) by congruence. subst a b. simpl.
    exact (Sorted_adjacent _ i _ _ (retrieved_Sorted similarity query k index) Ea Eb).
  - rewrite Hlen. apply Nat.le_min_r.
  - exact Hlen.
  - subst rs body. unfold Service.searchBody; simpl. now rewrite length_map.
Qed.

(** The scenario of the specification: [k = 5] against three embedded
    chunks. *)
Lemma search_results_ranked_and_bounded_witness :
  let mk i := {| Service.id := i; Service.document_id := 1; Service.chunk_index := i;
                 Service.text := js "foo"; Service.filename := js "a.txt" |} in
  let similarity (_ : jsstring) (c : Service.Chunk) := (Service.id c # 10)%Q in
  let rs := SearchPage.SearchResponse.results
              (Service.searchBody similarity (js "foo") 5 [mk 3%Z; mk 9%Z; mk 5%Z]) in
  (List.length rs <= 3)%nat
  /\ map SearchPage.ChunkResult.similarity_score rs = [9 # 10; 5 # 10; 3 # 10]%Q.
Proof.
  intros mk similarity rs. split.
  - exact (proj1 (proj2 (search_results_ranked_and_bounded
                           similarity (js "foo") 5 [mk 3%Z; mk 9%Z; mk 5%Z]))).
  - reflexivity.
Defined.

(** C1.  Every citation in the body of an answer names the document and the
    chunk index of a hit in the same body: a citation of a chunk that was
    not retrieved by that call never leaves the service.  The chat page
    keeps the property, since [ask] stores both lists as they arrive. *)
Theorem answer_citations_are_retrieved :
  forall similarity tokenCount previewOf generate query k max_tokens index,
    let data :=
      Service.qaBody similarity tokenCount previewOf generate query k max_tokens index in
    (forall c,
        In c (ChatPage.arrayOrEmpty (ChatPage.QAResponse.citations data)) ->
        groundedIn (ChatPage.arrayOrEmpty (ChatPage.QAResponse.hits data)) c)
    /\ (forall api st,
           blank (ChatPage.query st) = false ->
           ChatPage.loading st = false ->
           let st' :=
             finalState
               (ChatPage.ask api
                  (Resolved (Service.qaEndpoint similarity tokenCount previewOf generate
                               query k max_tokens index)) st) in
           forall c, In c (ChatPage.citations st') -> groundedIn (ChatPage.hits st') c).
Proof.
  intros similarity tokenCount previewOf generate query k max_tokens index data.
  assert (G : forall c,
             In c (ChatPage.arrayOrEmpty (ChatPage.QAResponse.citations data)) ->
             groundedIn (ChatPage.arrayOrEmpty (ChatPage.QAResponse.hits data)) c).
  { intros c. subst data. unfold Service.qaBody, Service.answer.
    destruct (generate _ _ _) as [[text cited]|]; simpl; [|tauto].
    intros Hin. apply filter_In in Hin as [_ Hex].
    apply existsb_exists in Hex as [h [Hh Hc]].
    apply contextWindow_incl in Hh.
    unfold Service.cites in Hc. apply andb_true_iff in Hc as [Hd Hi].
    apply Z.eqb_eq in Hd, Hi.
    exists (Service.contextHit previewOf h). split; [now apply in_map|].
    simpl. now split. }
  split; [exact G|].
  intros api st B L st' c. subst st'.
  rewrite (ask_success api st
             (Service.qaEndpoint similarity tokenCount previewOf generate
                query k max_tokens index) data B L eq_refl eq_refl).
  simpl. apply G.
Qed.

Lemma answer_citations_are_retrieved_witness :
  let mk d i := {| Service.id := i; Service.document_id := d; Service.chunk_index := i;
                   Service.text := js "ranked retrieval"; Service.filename := js "a.txt" |} in
  let similarity (_ : jsstring) (c : Service.Chunk) := (Service.id c # 10)%Q in
  let tokenCount (_ : jsstring) := 100%Z in
  let cite d i := {| ChatPage.Citation.document_id := d; ChatPage.Citation.chunk_index := i |} in
  let generate (_ : jsstring) (_ : list Service.Hit) (_ : Z) :=
    Some (js "see the first chunk", [cite 1%Z 2%Z; cite 9%Z 9%Z]) in
  let data := Service.qaBody similarity tokenCount (fun s => s) generate
                (js "retrieval") 6 384 [mk 1%Z 1%Z; mk 1%Z 2%Z] in
  In (cite 1%Z 2%Z) (ChatPage.arrayOrEmpty (ChatPage.QAResponse.citations data))
  /\ ~ In (cite 9%Z 9%Z) (ChatPage.arrayOrEmpty (ChatPage.QAResponse.citations data))
  /\ groundedIn (ChatPage.arrayOrEmpty (ChatPage.QAResponse.hits data)) (cite 1%Z 2%Z).
Proof.
  intros mk similarity tokenCount cite generate data.
  assert (Hin : In (cite 1%Z 2%Z)
                  (ChatPage.arrayOrEmpty (ChatPage.QAResponse.citations data)))
    by (left; reflexivity).
  split; [exact Hin|]. split.
  - intros [H | []]. discriminate H.
  - exact (proj1 (answer_citations_are_retrieved similarity tokenCount (fun s => s)
                    generate (js "retrieval") 6 384 [mk 1%Z 1%Z; mk 1%Z 2%Z])
             (cite 1%Z 2%Z) Hin).
Defined.

(** C3.  When the language model is unreachable for a call, the [/qa]
    response is still a success: its body leaves the answer out and carries
    the retrieved hits, as many as the smaller of [k] and the number of
    embedded chunks.  [ask] completes normally on it, with an empty answer,
    the hits in place, no error message and the loading flag cleared.  [ask]
    never throws, whatever the network answers, and on a body that lacks
    [answer], [citations] and [hits] it stores the empty string and two
    empty lists. *)
Theorem answer_degrades_to_hits_when_llm_down :
  (forall similarity tokenCount previewOf generate query k max_tokens index,
      let hits := Service.retrieved (Service.search similarity query k index) in
      generate query (Service.contextWindow tokenCount max_tokens hits) max_tokens = None ->
      let resp := Service.qaEndpoint similarity tokenCount previewOf generate
                    query k max_tokens index in
      ok resp = true
      /\ (exists data,
             json resp = inr data
             /\ ChatPage.QAResponse.answer data = None
             /\ ChatPage.QAResponse.hits data
                = Some (map (Service.contextHit previewOf) hits))
      /\ List.length hits = Nat.min (Z.to_nat k) (List.length index)
      /\ (forall api st,
             blank (ChatPage.query st) = false ->
             ChatPage.loading st = false ->
             let run := ChatPage.ask api (Resolved resp) st in
             outcome run = inr tt
             /\ ChatPage.answer (finalState run) = []
             /\ ChatPage.hits (finalState run) = map (Service.contextHit previewOf) hits
             /\ ChatPage.error (finalState run) = []
             /\ ChatPage.loading (finalState run) = false))
  /\ (forall api net st, outcome (ChatPage.ask api net st) = inr tt)
  /\ (forall api st r,
         blank (ChatPage.query st) = false ->
         ChatPage.loading st = false ->
         ok r = true ->
         json r = inr {| ChatPage.QAResponse.answer := None;
                         ChatPage.QAResponse.citations := None;
                         ChatPage.QAResponse.hits := None |} ->
         let st' := finalState (ChatPage.ask api (Resolved r) st) in
         ChatPage.answer st' = [] /\ ChatPage.citations st' = []
         /\ ChatPage.hits st' = [] /\ ChatPage.error st' = []).
Proof.
  split; [|split].
  - intros similarity tokenCount previewOf generate query k max_tokens index hits
      Hdown resp.
    assert (Hbody : Service.qaBody similarity tokenCount previewOf generate
                      query k max_tokens index
                    = {| ChatPage.QAResponse.answer := None;
                         ChatPage.QAResponse.citations := Some [];
                         ChatPage.QAResponse.hits :=
                           Some (map (Service.contextHit previewOf) hits) |}).
    { unfold Service.qaBody, Service.answer. fold hits. now rewrite Hdown. }
    split; [reflexivity|]. split; [|split].
    + eexists; split; [reflexivity|]. rewrite Hbody. now split.
    + apply retrieved_length.
    + intros api st B L run. subst run.
      rewrite (ask_success api st resp _ B L eq_refl eq_refl).
      rewrite Hbody. repeat split.
  - intros; apply ask_never_throws.
  - intros api st r B L Hok Hjson st'. subst st'.
    rewrite (ask_success api st r _ B L Hok Hjson). repeat split.
Qed.

Lemma answer_degrades_to_hits_when_llm_down_witness :
  let mk i := {| Service.id := i; Service.document_id := 4; Service.chunk_index := i;
                 Service.text := js "chunk text"; Service.filename := js "notes.txt" |} in
  let similarity (_ : jsstring) (c : Service.Chunk) := (Service.id c # 10)%Q in
  let tokenCount (_ : jsstring) := 50%Z in
  let generate (_ : jsstring) (_ : list Service.Hit) (_ : Z)
    : option (jsstring * list ChatPage.Citation.t) := None in
  let index := [mk 2%Z; mk 7%Z] in
  let hits := Service.retrieved (Service.search similarity (js "notes") 6 index) in
  let resp := Service.qaEndpoint similarity tokenCount (fun s => s) generate
                (js "notes") 6 384 index in
  generate (js "notes") (Service.contextWindow tokenCount 384 hits) 384%Z = None
  /\ ok resp = true
  /\ List.length hits = 2%nat.
Proof.
  intros mk similarity tokenCount generate index hits resp.
  assert (Hdown : generate (js "notes") (Service.contextWindow tokenCount 384 hits) 384%Z
                  = None) by reflexivity.
  pose proof (proj1 answer_degrades_to_hits_when_llm_down similarity tokenCount
                (fun s => s) generate (js "notes") 6%Z 384%Z index Hdown) as H.
  split; [exact Hdown|]. split.
  - exact (proj1 H).
  - exact (proj1 (proj2 (proj2 H))).
Defined.

(** C4.  A search over an index without embedded documents is answered with
    a success whose body has [total_results = 0] and an empty [results]
    list.  [handleSearch] completes normally on it and stores the body with
    no error message, and the page then renders the "No results found"
    panel: no error banner and no instructions card. *)
Theorem empty_index_search_renders_no_results :
  forall similarity query k,
    let resp := Service.searchEndpoint similarity query k [] in
    let body := {| SearchPage.SearchResponse.query := query;
                   SearchPage.SearchResponse.results := [];
                   SearchPage.SearchResponse.total_results := 0 |} in
    ok resp = true
    /\ json resp = inr body
    /\ (forall api canonicalize st,
           blank (SearchPage.query st) = false ->
           let run := SearchPage.handleSearch api (Resolved resp) st in
           outcome run = inr tt
           /\ SearchPage.error (finalState run) = []
           /\ SearchPage.results (finalState run) = Some body
           /\ SearchPage.render canonicalize (finalState run)
              = Some {| SearchPage.error_banner := None;
                        SearchPage.results_panel :=
                          Some {| SearchPage.count_label :=
                                    js "0 results for " ++ [34%N] ++ query ++ [34%N];
                                  SearchPage.panel_body := SearchPage.NoResultsFound |};
                        SearchPage.instructions := false |}).
Proof.
  intros similarity query k resp body.
  split; [reflexivity|]. split; [reflexivity|].
  intros api canonicalize st B run. subst run.
  rewrite (handleSearch_success api st resp body B eq_refl eq_refl).
  repeat split.
Qed.

Lemma empty_index_search_renders_no_results_witness :
  let similarity (_ : jsstring) (c : Service.Chunk) := (1 # 2)%Q in
  let st := {| SearchPage.query := js "foo"; SearchPage.results := None;
               SearchPage.loading := false; SearchPage.error := [] |} in
  let run := SearchPage.handleSearch (js "http://localhost:8000")
               (Resolved (Service.searchEndpoint similarity (js "foo") 10 [])) st in
  blank (SearchPage.query st) = false
  /\ SearchPage.error (finalState run) = []
  /\ option_map SearchPage.results_panel
       (SearchPage.render asciiUpper (finalState run))
     = Some (Some {| SearchPage.count_label := js "0 results for " ++ [34%N] ++ js "foo" ++ [34%N];
                     SearchPage.panel_body := SearchPage.NoResultsFound |}).
Proof.
  intros similarity st run.
  assert (B : blank (SearchPage.query st) = false) by reflexivity.
  pose proof (proj2 (proj2 (empty_index_search_renders_no_results similarity (js "foo") 10))
                (js "http://localhost:8000") asciiUpper st B) as H.
  split; [exact B|]. split.
  - exact (proj1 (proj2 H)).
  - fold run in H. destruct H as [_ [_ [_ H]]]. rewrite H. reflexivity.
Defined.

(* ================================================================== *)
(** ** The status poll of the upload page *)
(* ================================================================== *)

Lemma stopsPolling_iff (s : jsstring) :
  UploadPage.stopsPolling s = true
  <-> s = js "parsed" \/ s = js "error" \/ s = js "parsed_empty".
Proof.
  unfold UploadPage.stopsPolling.
  rewrite !orb_true_iff, !streq_true_iff. tauto.
Qed.

(** One run of [poll] on a response whose body parses: the status line is
    replaced, and the timer is re-armed unless the status stops the poll.
    The status code of the response plays no part. *)
Lemma poll_resolved api id (st : UploadPage.State) r j :
  json r = inr j ->
  UploadPage.poll api id (Resolved r) st
  = (inr tt,
     {| UploadPage.file := UploadPage.file st;
        UploadPage.status := statusLine j;
        UploadPage.docId := UploadPage.docId st |},
     Fetch (UploadPage.statusRequest api id)
       :: (if UploadPage.stopsPolling (UploadPage.DocumentStatus.status j)
           then [] else [SetTimeout 1500])).
Proof.
  intros Hj. unfold UploadPage.poll, UploadPage.setStatus.
  run_handler. rewrite Hj.
  destruct (UploadPage.stopsPolling _); reflexivity.
Qed.

Lemma poll_okResponse api id (st : UploadPage.State) j :
  UploadPage.poll api id (okResponse j) st
  = (inr tt,
     {| UploadPage.file := UploadPage.file st;
        UploadPage.status := statusLine j;
        UploadPage.docId := UploadPage.docId st |},
     Fetch (UploadPage.statusRequest api id)
       :: (if UploadPage.stopsPolling (UploadPage.DocumentStatus.status j)
           then [] else [SetTimeout 1500])).
Proof. now apply poll_resolved. Qed.

(** C5, as the page implements it.  [poll] ends without re-arming its timer
    exactly when the fetched status is [parsed], [error] or [parsed_empty];
    on every other status it re-arms the timer, with a delay of 1500 ms.
    So a chain of timer firings that sees statuses outside these three and
    then one of them performs one request per firing, re-arms the timer
    after each but the last, and ends on the status line of the last.  A
    fetch that rejects, or a body that does not parse, ends the poll too:
    the callback throws before it reaches [setTimeout]. *)
Theorem poll_stops_on_parsed_error_parsed_empty :
  (forall s,
      UploadPage.stopsPolling s = true
      <-> s = js "parsed" \/ s = js "error" \/ s = js "parsed_empty")
  /\ (forall api id st r j,
         json r = inr j ->
         let run := UploadPage.poll api id (Resolved r) st in
         UploadPage.armsTimer (trace run)
         = negb (UploadPage.stopsPolling (UploadPage.DocumentStatus.status j))
         /\ UploadPage.timerDelays (trace run)
            = (if UploadPage.stopsPolling (UploadPage.DocumentStatus.status j)
               then [] else [1500%Z])
         /\ UploadPage.status (finalState run) = statusLine j)
  /\ (forall api id st pre j post,
         Forall (fun d => UploadPage.stopsPolling (UploadPage.DocumentStatus.status d) = false) pre ->
         UploadPage.stopsPolling (UploadPage.DocumentStatus.status j) = true ->
         let run := UploadPage.polling api id (map okResponse (pre ++ j :: post)) st in
         List.length (requests (trace run)) = S (List.length pre)
         /\ UploadPage.timerDelays (trace run) = repeat 1500%Z (List.length pre)
         /\ UploadPage.status (finalState run) = statusLine j)
  /\ (forall api id st net e,
         net = Rejected e
         \/ (exists r, net = Resolved r /\ json r = inl e) ->
         let run := UploadPage.poll api id net st in
         outcome run = inl e
         /\ UploadPage.armsTimer (trace run) = false
         /\ finalState run = st).
Proof.
  split; [exact stopsPolling_iff|]. split; [|split].
  - intros api id st r j Hj run. subst run. rewrite (poll_resolved api id st r j Hj).
    unfold trace, finalState; simpl.
    destruct (UploadPage.stopsPolling _); repeat split.
  - intros api id st pre j post Hpre Hj. revert st.
    induction Hpre as [|d pre Hd Hpre IH]; intros st run; subst run.
    + simpl. rewrite poll_okResponse, Hj. repeat split.
    + simpl. rewrite poll_okResponse, Hd. simpl.
      specialize (IH {| UploadPage.file := UploadPage.file st;
                        UploadPage.status := statusLine d;
                        UploadPage.docId := UploadPage.docId st |}).
      simpl in IH.
      destruct (UploadPage.polling api id (map okResponse (pre ++ j :: post)) _)
        as [[res st'] t'].
      unfold trace, finalState in *; simpl in *.
      destruct IH as [H1 [H2 H3]]. repeat split; congruence.
  - intros api id st net e [-> | [r [-> Hr]]] run; subst run;
      unfold UploadPage.poll, UploadPage.setStatus; run_handler;
      [|rewrite Hr]; repeat split.
Qed.

Lemma poll_stops_on_parsed_error_parsed_empty_witness :
  let doc s := {| UploadPage.DocumentStatus.status := js s;
                  UploadPage.DocumentStatus.chunks := 3 |} in
  let pre := [doc "queued"%string; doc "done"%string; doc "embedded"%string] in
  let run := UploadPage.polling (js "http://localhost:8000") (Some 7%Z)
               (map okResponse (pre ++ doc "parsed"%string :: [doc "done"%string]))
               UploadPage.initial in
  Forall (fun d => UploadPage.stopsPolling (UploadPage.DocumentStatus.status d) = false) pre
  /\ UploadPage.stopsPolling (js "parsed") = true
  /\ List.length (requests (trace run)) = 4%nat
  /\ UploadPage.timerDelays (trace run) = [1500; 1500; 1500]%Z.
Proof.
  intros doc pre run.
  assert (Hpre : Forall (fun d => UploadPage.stopsPolling
                                    (UploadPage.DocumentStatus.status d) = false) pre)
    by (repeat constructor).
  assert (Hj : UploadPage.stopsPolling
                 (UploadPage.DocumentStatus.status (doc "parsed"%string)) = true)
    by reflexivity.
  pose proof (proj1 (proj2 (proj2 poll_stops_on_parsed_error_parsed_empty))
                (js "http://localhost:8000") (Some 7%Z) UploadPage.initial
                pre (doc "parsed"%string) [doc "done"%string] Hpre Hj) as H.
  split; [exact Hpre|]. split; [exact Hj|]. split.
  - exact (proj1 H).
  - exact (proj1 (proj2 H)).
Defined.

(** C5 as it is worded fails on both sides of the "exactly": the status
    [done] is terminal for the document state machine, and [poll] re-arms
    its timer on it; the status [parsed] is not in the claimed set, and
    [poll] stops on it. *)
Lemma poll_continues_on_done_and_stops_on_parsed :
  let doc s := okResponse {| UploadPage.DocumentStatus.status := js s;
                             UploadPage.DocumentStatus.chunks := 3 |} in
  let run s := UploadPage.poll (js "http://localhost:8000") (Some 7%Z) (doc s) UploadPage.initial in
  (Service.terminal (js "done") = true
   /\ UploadPage.armsTimer (trace (run "done"%string)) = true
   /\ UploadPage.timerDelays (trace (run "done"%string)) = [1500%Z])
  /\ (Service.terminal (js "parsed") = false
      /\ UploadPage.armsTimer (trace (run "parsed"%string)) = false).
Proof.
  intros doc run. repeat split.
Qed.

(* ================================================================== *)
(** ** The health check of the home page *)
(* ================================================================== *)

Lemma fetchApiHealth_trace net (st : HomePage.ApiStatus) :
  trace (HomePage.fetchApiHealth net st) = [Fetch HomePage.healthRequest].
Proof.
  unfold HomePage.fetchApiHealth, HomePage.setApiStatus.
  run_handler.
  destruct net as [e | r]; [reflexivity|].
  destruct (ok r); simpl; [|reflexivity].
  destruct (json r); reflexivity.
Qed.

(** C6, evaluated on the code.  Every run of [fetchApiHealth] issues one
    request, a [GET] of [http://localhost:8000/health]: the URL does not end
    in [/healthz], whatever the base.  The response type it reads has the
    properties [status], [timestamp], [version] and [environment], so a
    body [{status, version}] lacks two of the properties the card shows. *)
Theorem fetchApiHealth_requests_health_not_healthz :
  (forall net st,
      requests (trace (HomePage.fetchApiHealth net st)) = [HomePage.healthRequest])
  /\ method HomePage.healthRequest = GET
  /\ url HomePage.healthRequest = js "http://localhost:8000/health"
  /\ (forall base, url HomePage.healthRequest <> base ++ Service.healthzPath)
  /\ HomePage.HealthResponse.fields
     = [js "status"; js "timestamp"; js "version"; js "environment"]
  /\ HomePage.HealthResponse.fields <> Service.healthzFields
  /\ (forall status version,
         HomePage.HealthResponse.ofJSON (Service.healthzJSON status version) = None).
Proof.
  split; [|split; [|split; [|split; [|split; [|split]]]]].
  - intros net st. now rewrite fetchApiHealth_trace.
  - reflexivity.
  - reflexivity.
  - intros base H. apply (f_equal (@rev char)) in H.
    rewrite rev_app_distr in H. discriminate H.
  - reflexivity.
  - discriminate.
  - intros status version. unfold HomePage.HealthResponse.ofJSON, Service.healthzJSON.
    read_properties. reflexivity.
Qed.

(* ================================================================== *)
(** ** Highlighting of search results *)
(* ================================================================== *)

Section HighlightFacts.

Import RegExp.

Variable canonicalize : char -> char.

Lemma pattern_character_not_delimiter c :
  isSyntaxCharacter c = false -> (c =? 41)%N = false /\ (c =? 124)%N = false.
Proof.
  intros H; split.
  - destruct (c =? 41)%N eqn:E; [|reflexivity].
    apply N.eqb_eq in E; subst c. vm_compute in H. discriminate H.
  - destruct (c =? 124)%N eqn:E; [|reflexivity].
    apply N.eqb_eq in E; subst c. vm_compute in H. discriminate H.
Qed.

(** A token of pattern characters in front of a parsed disjunction extends
    its first alternative. *)
Lemma parseDisjunction_token t p a alts :
  patternText t = true ->
  parseDisjunction p = Some (a :: alts) ->
  parseDisjunction (t ++ p) = Some ((t ++ a) :: alts).
Proof.
  intros Ht Hp. induction t as [|c t IH]; simpl; [exact Hp|].
  simpl in Ht. apply andb_true_iff in Ht as [Hc Ht].
  apply negb_true_iff in Hc.
  destruct (pattern_character_not_delimiter c Hc) as [H1 H2].
  now rewrite H1, H2, Hc, (IH Ht).
Qed.

(** The tokens joined by [|] and closed by [)] parse back into the tokens,
    when none of them holds a syntax character. *)
Lemma parseDisjunction_join toks :
  toks <> [] ->
  Forall (fun t => patternText t = true) toks ->
  parseDisjunction (join [124%N] toks ++ [41%N]) = Some toks.
Proof.
  induction toks as [|t r IH]; [congruence|].
  intros _ HF. inversion HF as [|? ? Ht Hr]; subst.
  destruct r as [|t' r'].
  - simpl join.
    pose proof (parseDisjunction_token t [41%N] [] [] Ht eq_refl) as H.
    rewrite app_nil_r in H. exact H.
  - change (join [124%N] (t :: t' :: r'))
      with (t ++ [124%N] ++ join [124%N] (t' :: r')).
    rewrite <- !app_assoc.
    assert (Hrest : parseDisjunction ([124%N] ++ join [124%N] (t' :: r') ++ [41%N])
                    = Some ([] :: t' :: r')).
    { change ([124%N] ++ ?x) with (124%N :: x).
      cbn [parseDisjunction]. change (124 =? 41)%N with false.
      change (124 =? 124)%N with true. cbv iota.
      rewrite IH by (congruence || assumption). reflexivity. }
    pose proof (parseDisjunction_token t _ [] (t' :: r') Ht Hrest) as H.
    rewrite app_nil_r in H. exact H.
Qed.

Lemma compile_highlightPattern query :
  Forall (fun t => patternText t = true) (split 32%N (trim query)) ->
  compile (SearchPage.highlightPattern query) = Some (split 32%N (trim query)).
Proof.
  intros HF. unfold SearchPage.highlightPattern.
  change (js "(") with [40%N]. change (js "|") with [124%N].
  change (js ")") with [41%N].
  change ([40%N] ++ ?x) with (40%N :: x). unfold compile.
  change (40 =? 40)%N with true. cbv iota.
  apply parseDisjunction_join; [apply split_not_nil | exact HF].
Qed.

Lemma matchesAt_prefix a s :
  matchesAt canonicalize a s = true ->
  (List.length a <= List.length s)%nat
  /\ map canonicalize a = map canonicalize (firstn (List.length a) s).
Proof.
  revert s; induction a as [|p a IH]; intros s H; simpl.
  - split; [lia | reflexivity].
  - destruct s as [|c s]; simpl in H; [discriminate|].
    apply andb_true_iff in H as [Hc Hs]. apply N.eqb_eq in Hc.
    destruct (IH s Hs) as [Hl Hm]. simpl. split; [lia|]. now rewrite Hc, Hm.
Qed.

Lemma firstMatch_Some alts s n :
  firstMatch canonicalize alts s = Some n ->
  exists a, In a alts /\ matchesAt canonicalize a s = true /\ List.length a = n.
Proof.
  induction alts as [|a alts IH]; simpl; [discriminate|].
  destruct (matchesAt canonicalize a s) eqn:E.
  - intros H; injection H as <-. exists a; auto.
  - intros H. destruct (IH H) as [b [Hb Hm]]. exists b; auto.
Qed.

Lemma firstMatch_nonempty alts s :
  ~ In [] alts -> firstMatch canonicalize alts s <> Some 0%nat.
Proof.
  intros Hne H. apply firstMatch_Some in H as [a [Ha [_ Hl]]].
  destruct a; [contradiction | discriminate].
Qed.

(** The segments of a scan spell the part of the subject that was still to
    be passed. *)
Lemma subject_scan alts s skip :
  subject (scan canonicalize alts s skip) = skipn skip s.
Proof.
  revert skip; induction s as [|c r IH]; intros [|k]; simpl; try reflexivity.
  - destruct (firstMatch canonicalize alts []) as [[|n]|]; reflexivity.
  - destruct (firstMatch canonicalize alts (c :: r)) as [[|n]|]; simpl.
    + now rewrite IH.
    + rewrite IH. now rewrite firstn_skipn.
    + now rewrite IH.
  - apply IH.
Qed.

(** Every match recorded by a scan is the match of the first alternative
    that matches at its position. *)
Lemma scan_matched alts s skip pre m post :
  scan canonicalize alts s skip = pre ++ Matched m :: post ->
  firstMatch canonicalize alts (m ++ subject post) = Some (List.length m).
Proof.
  revert skip pre; induction s as [|c r IH]; intros [|k] pre; simpl.
  - destruct (firstMatch canonicalize alts []) as [[|n]|] eqn:E;
      destruct pre as [|x pre]; simpl; try discriminate.
    + intros H; injection H as <- <-. exact E.
    + destruct pre; discriminate.
  - destruct pre; discriminate.
  - destruct (firstMatch canonicalize alts (c :: r)) as [[|n]|] eqn:E.
    + destruct pre as [|x pre]; simpl.
      * intros H; injection H as <- <-. simpl.
        now rewrite subject_scan.
      * intros H; injection H as _ H.
        destruct pre as [|y pre]; simpl in H; [discriminate|].
        injection H as _ H. eapply IH; eauto.
    + destruct pre as [|x pre]; simpl.
      * intros H; injection H as <- <-.
        destruct (firstMatch_Some _ _ _ E) as [a [_ [Hm Hl]]].
        apply matchesAt_prefix in Hm as [Hlen _]. simpl in Hlen.
        rewrite subject_scan. simpl.
        rewrite firstn_skipn, length_firstn.
        rewrite E. f_equal. lia.
      * intros H; injection H as _ H. eapply IH; eauto.
    + destruct pre as [|x pre]; simpl; [discriminate|].
      intros H; injection H as _ H. eapply IH; eauto.
  - apply IH.
Qed.

(** When no alternative is empty, a code unit left outside every match
    stands at a position where no alternative matches. *)
Lemma scan_unmatched alts s skip pre c post :
  ~ In [] alts ->
  scan canonicalize alts s skip = pre ++ Unmatched c :: post ->
  firstMatch canonicalize alts (c :: subject post) = None.
Proof.
  intros Hne. revert skip pre; induction s as [|x r IH]; intros [|k] pre; simpl.
  - destruct (firstMatch canonicalize alts []) as [[|n]|] eqn:E;
      destruct pre as [|y pre]; simpl; try discriminate.
    destruct pre; discriminate.
  - destruct pre; discriminate.
  - destruct (firstMatch canonicalize alts (x :: r)) as [[|n]|] eqn:E.
    + now apply firstMatch_nonempty in E.
    + destruct pre as [|y pre]; simpl; [discriminate|].
      intros H; injection H as _ H. eapply IH; eauto.
    + destruct pre as [|y pre]; simpl.
      * intros H; injection H as <- <-. now rewrite subject_scan.
      * intros H; injection H as _ H. eapply IH; eauto.
  - apply IH.
Qed.

Lemma substitute_markTemplate seg :
  substitute SearchPage.markTemplate seg = marked seg.
Proof. destruct seg; reflexivity. Qed.

Lemma replace_marked alts s :
  replace canonicalize alts s SearchPage.markTemplate
  = flat_map marked (scan canonicalize alts s 0).
Proof.
  unfold replace. induction (scan canonicalize alts s 0) as [|seg l IH]; simpl;
    [reflexivity|].
  now rewrite substitute_markTemplate, IH.
Qed.

End HighlightFacts.

Section HighlightUnique.

Import RegExp.

Variable canonicalize : char -> char.

(** When no alternative is empty, passing over [k] code units of a match is
    scanning afresh what follows them. *)
Lemma scan_skip alts :
  ~ In [] alts ->
  forall s k,
    scan canonicalize alts s k = scan canonicalize alts (skipn k s) 0.
Proof.
  intros Hne. induction s as [|c r IH]; intros [|k]; try reflexivity.
  - simpl. pose proof (firstMatch_nonempty canonicalize alts [] Hne) as H0.
    destruct (firstMatch canonicalize alts []) as [[|n]|]; congruence.
  - simpl skipn. cbn [scan]. apply IH.
Qed.

Lemma wrapsMatches_tail alts seg segs s :
  wrapsMatches canonicalize alts s (seg :: segs) ->
  wrapsMatches canonicalize alts (subject segs) segs.
Proof.
  intros [_ [Hm Hu]]. split; [reflexivity|]. split.
  - intros pre m post E. apply (Hm (seg :: pre)). simpl. now rewrite E.
  - intros pre c post E. apply (Hu (seg :: pre)). simpl. now rewrite E.
Qed.

(** When no alternative is empty, the scan is the only way to cut the text
    at the matches. *)
Lemma wrapsMatches_unique alts :
  ~ In [] alts ->
  forall segs s,
    wrapsMatches canonicalize alts s segs ->
    segs = scan canonicalize alts s 0.
Proof.
  intros Hne. induction segs as [|seg segs IH]; intros s W.
  - destruct W as [Hs _]. simpl in Hs. subst s. simpl.
    pose proof (firstMatch_nonempty canonicalize alts [] Hne) as H0.
    destruct (firstMatch canonicalize alts []) as [[|n]|]; congruence.
  - pose proof (IH _ (wrapsMatches_tail alts seg segs s W)) as Htail.
    destruct W as [Hs [Hm Hu]].
    destruct seg as [c | m].
    + simpl in Hs. subst s.
      pose proof (Hu [] c segs eq_refl) as Hnone.
      cbn [scan]. rewrite Hnone. now rewrite <- Htail.
    + simpl in Hs. subst s.
      pose proof (Hm [] m segs eq_refl) as Hfirst.
      destruct m as [|c m'].
      { exfalso. exact (firstMatch_nonempty canonicalize alts _ Hne Hfirst). }
      change ((c :: m') ++ subject segs) with (c :: (m' ++ subject segs)) in *.
      cbn [scan]. rewrite Hfirst. cbn [List.length].
      rewrite (scan_skip alts Hne (m' ++ subject segs) (List.length m')).
      rewrite skipn_app, skipn_all, Nat.sub_diag. simpl skipn. simpl app.
      rewrite <- Htail. f_equal. f_equal.
      change (firstn (S (List.length m')) (c :: m' ++ subject segs))
        with (c :: firstn (List.length m') (m' ++ subject segs)).
      rewrite firstn_app, firstn_all, Nat.sub_diag. simpl. now rewrite app_nil_r.
Qed.

End HighlightUnique.

(** C10, as the page implements it.  On an empty or white-space-only query
    [highlightText] returns the text unchanged.  On any other query, take
    the pieces of the trimmed query between single spaces.  When no piece is
    empty (the query has no two spaces in a row) and none holds a
    regular-expression syntax character, the result is the text cut into
    segments, each match put between the opening and closing mark tags and
    every other code unit left as it is, in order: taking the tags away
    gives the text back.  Each match is the match of the first piece, in
    query order, that matches at its position, and equals that piece up to
    case; no piece matches at the position of a code unit left outside the
    marks.  These conditions leave no choice: the segments are the only way
    to cut the text that meets them, so every successive match is wrapped. *)
Theorem highlightText_marks_token_matches :
  forall canonicalize text query,
    (blank query = true ->
     SearchPage.highlightText canonicalize text query = Some text)
    /\ (blank query = false ->
        let tokens := split 32%N (trim query) in
        Forall (fun t => patternText t = true) tokens ->
        ~ In [] tokens ->
        exists segs,
          SearchPage.highlightText canonicalize text query
          = Some (flat_map marked segs)
          /\ wrapsMatches canonicalize tokens text segs
          /\ (forall pre m post,
                 segs = pre ++ RegExp.Matched m :: post ->
                 exists t, In t tokens /\ map canonicalize t = map canonicalize m)
          /\ (forall segs',
                 wrapsMatches canonicalize tokens text segs' -> segs' = segs)).
Proof.
  intros canonicalize text query. split.
  - intros B. unfold SearchPage.highlightText. now rewrite trim_truthy, B.
  - intros B tokens HF Hne.
    exists (RegExp.scan canonicalize tokens text 0).
    split; [|split; [|split]].
    + unfold SearchPage.highlightText. rewrite trim_truthy, B. simpl negb. cbv iota.
      rewrite (compile_highlightPattern query HF). fold tokens.
      now rewrite replace_marked.
    + split; [apply subject_scan|]. split.
      * intros pre m post Hsegs.
        exact (scan_matched canonicalize tokens text 0 pre m post Hsegs).
      * intros pre c post Hsegs.
        exact (scan_unmatched canonicalize tokens text 0 pre c post Hne Hsegs).
    + intros pre m post Hsegs.
      pose proof (scan_matched canonicalize tokens text 0 pre m post Hsegs) as Hm.
      destruct (firstMatch_Some _ _ _ _ Hm) as [t [Ht [Hmatch Hlen]]].
      exists t; split; [exact Ht|].
      apply matchesAt_prefix in Hmatch as [_ Hmap].
      rewrite Hmap, Hlen, firstn_app, firstn_all, Nat.sub_diag. simpl.
      now rewrite app_nil_r.
    + intros segs' W. exact (wrapsMatches_unique canonicalize tokens Hne segs' text W).
Qed.

Lemma highlightText_marks_token_matches_witness :
  let text := js "Hello world, hello" in
  (blank (js "  ") = true
   /\ SearchPage.highlightText asciiUpper text (js "  ") = Some text)
  /\ (blank (js " hello ") = false
      /\ Forall (fun t => patternText t = true) (split 32%N (trim (js " hello ")))
      /\ ~ In [] (split 32%N (trim (js " hello ")))
      /\ exists segs,
           SearchPage.highlightText asciiUpper text (js " hello ")
           = Some (flat_map marked segs)
           /\ RegExp.subject segs = text).
Proof.
  intros text. split.
  - split; [reflexivity|].
    exact (proj1 (highlightText_marks_token_matches asciiUpper text (js "  ")) eq_refl).
  - assert (B : blank (js " hello ") = false) by reflexivity.
    assert (HF : Forall (fun t => patternText t = true)
                   (split 32%N (trim (js " hello "))))
      by (repeat constructor).
    assert (Hne : ~ In [] (split 32%N (trim (js " hello ")))).
    { intros [H | []]. discriminate H. }
    split; [exact B|]. split; [exact HF|]. split; [exact Hne|].
    destruct (proj2 (highlightText_marks_token_matches asciiUpper text (js " hello "))
                B HF Hne) as [segs [H1 [[H2 _] _]]].
    exists segs. split; [exact H1 | exact H2].
Defined.

(** C10 as it is worded fails for tokens separated by white space other
    than a single space.  In the query [a<TAB>b] the token [a] is a
    white-space-separated token, and it occurs in the text [a]; the page
    splits on the space only, searches for the three code units together,
    and returns the text without a mark.  With two spaces in a row the page
    puts empty marks around every code unit that does not start a match and
    leaves the occurrence of the token [b] outside them. *)
Lemma highlightText_misses_tab_separated_token :
  let query := [97; 9; 98]%N in
  let text := js "a" in
  (blank query = false
   /\ In text (whitespaceTokens query)
   /\ SearchPage.highlightText asciiUpper text query = Some text)
  /\ (blank (js "a  b") = false
      /\ In (js "b") (whitespaceTokens (js "a  b"))
      /\ SearchPage.highlightText asciiUpper (js "b") (js "a  b")
         = Some (markOpen ++ markClose ++ js "b" ++ markOpen ++ markClose)).
Proof.
  intros query text. split; (split; [reflexivity|split; [|reflexivity]]).
  - left; reflexivity.
  - right; left; reflexivity.
Qed.

(* ================================================================== *)
(** ** Further properties of the search page *)
(* ================================================================== *)

(** A completed [handleSearch] on a non-blank query, for every answer of the
    network. *)
Lemma handleSearch_run api net (st : SearchPage.State) :
  blank (SearchPage.query st) = false ->
  SearchPage.handleSearch api net st
  = (inr tt,
     {| SearchPage.query := SearchPage.query st;
        SearchPage.results :=
          match net with
          | Rejected _ => None
          | Resolved r => if ok r then parsedBody net else None
          end;
        SearchPage.loading := false;
        SearchPage.error :=
          match net with
          | Rejected e => messageOr (js "Search failed") e
          | Resolved r =>
              if ok r then
                match json r with
                | inr _ => []
                | inl e => messageOr (js "Search failed") e
                end
              else js "Search failed: " ++ statusText r
          end |},
     [PreventDefault; Fetch (SearchPage.searchRequest api (SearchPage.query st))]).
Proof.
  intros H. unfold SearchPage.handleSearch.
  unfold bind at 1. simpl emit. cbv iota beta.
  rewrite trim_truthy, H. simpl negb. cbv iota.
  destruct net as [e | r]; [reflexivity|].
  unfold SearchPage.setLoading, SearchPage.setError, SearchPage.setResults.
  run_handler.
  destruct (ok r); simpl; [|reflexivity].
  destruct (json r); reflexivity.
Qed.

(** X1.  [handleSearch] never throws to the form: whatever the network
    answers and whatever the state, it completes normally and leaves the
    text of the search box as it was; when the query is not blank it ends
    with the loading flag cleared, also when the request failed. *)
Theorem handleSearch_always_completes :
  forall api net st,
    let run := SearchPage.handleSearch api net st in
    outcome run = inr tt
    /\ SearchPage.query (finalState run) = SearchPage.query st
    /\ (blank (SearchPage.query st) = false ->
        SearchPage.loading (finalState run) = false).
Proof.
  intros api net st run. subst run.
  destruct (blank (SearchPage.query st)) eqn:B.
  - rewrite handleSearch_blank by assumption. repeat split. discriminate.
  - rewrite handleSearch_run by assumption. repeat split.
Qed.

Lemma handleSearch_always_completes_witness :
  let st := {| SearchPage.query := js "faiss"; SearchPage.results := None;
               SearchPage.loading := true; SearchPage.error := [] |} in
  let run := SearchPage.handleSearch (js "http://localhost:8000")
               (Rejected (ErrorObject (js "Failed to fetch"))) st in
  blank (SearchPage.query st) = false
  /\ SearchPage.loading (finalState run) = false.
Proof.
  intros st run. split; [reflexivity|].
  exact (proj2 (proj2 (handleSearch_always_completes (js "http://localhost:8000")
                         (Rejected (ErrorObject (js "Failed to fetch"))) st))
           eq_refl).
Defined.

(** X2.  After a search on a non-blank query the page never shows an error
    banner together with a results panel.  A response outside the 2xx range
    drops the results of an earlier search and sets the error to
    [Search failed: <statusText>]; a rejected fetch or an unparsable body
    drops them too; a success stores the body and clears the error.  With
    the results dropped, the page renders without a results panel and shows
    the instructions card again. *)
Theorem handleSearch_results_exclude_error :
  forall api canonicalize net st,
    blank (SearchPage.query st) = false ->
    let st' := finalState (SearchPage.handleSearch api net st) in
    (forall view,
        SearchPage.render canonicalize st' = Some view ->
        SearchPage.results_panel view = None \/ SearchPage.error_banner view = None)
    /\ (forall r, net = Resolved r -> ok r = false ->
        SearchPage.results st' = None
        /\ SearchPage.error st' = js "Search failed: " ++ statusText r)
    /\ (transportFailure net <> None -> SearchPage.results st' = None)
    /\ (forall r data, net = Resolved r -> ok r = true -> json r = inr data ->
        SearchPage.results st' = Some data /\ SearchPage.error st' = [])
    /\ (SearchPage.results st' = None ->
        exists view,
          SearchPage.render canonicalize st' = Some view
          /\ SearchPage.results_panel view = None
          /\ SearchPage.instructions view = true).
Proof.
  intros api canonicalize net st B st'. subst st'.
  rewrite (handleSearch_run api net st B). unfold finalState; simpl.
  split; [|split; [|split; [|split]]].
  - intros view. unfold SearchPage.render; simpl.
    destruct net as [e | r]; simpl.
    + intros H; injection H as <-. now left.
    + destruct (ok r).
      * unfold parsedBody. destruct (json r) as [e | data]; simpl.
        -- intros H; injection H as <-. now left.
        -- destruct (SearchPage.panelBody canonicalize data); [|discriminate].
           intros H; injection H as <-. now right.
      * intros H; injection H as <-. now left.
  - intros r -> Hok. now rewrite Hok.
  - destruct net as [e | r]; [reflexivity|].
    unfold transportFailure, parsedBody. intros Hf.
    destruct (ok r); [|reflexivity]. destruct (json r); congruence.
  - intros r data -> Hok Hj. unfold parsedBody. now rewrite Hok, Hj.
  - intros Hn. unfold SearchPage.render; simpl. rewrite Hn.
    eexists. split; [reflexivity|]. split; reflexivity.
Qed.

Lemma handleSearch_results_exclude_error_witness :
  let old := {| SearchPage.SearchResponse.query := js "old";
                SearchPage.SearchResponse.results := [];
                SearchPage.SearchResponse.total_results := 0 |} in
  let st := {| SearchPage.query := js "faiss"; SearchPage.results := Some old;
               SearchPage.loading := false; SearchPage.error := [] |} in
  let r := {| status := 503; statusText := js "Service Unavailable";
              json := inr old |} in
  let st' := finalState (SearchPage.handleSearch (js "http://localhost:8000")
                           (Resolved r) st) in
  blank (SearchPage.query st) = false
  /\ ok r = false
  /\ SearchPage.results st' = None
  /\ SearchPage.error st' = js "Search failed: Service Unavailable".
Proof.
  intros old st r st'.
  assert (B : blank (SearchPage.query st) = false) by reflexivity.
  assert (Hok : ok r = false) by reflexivity.
  split; [exact B|]. split; [exact Hok|].
  exact (proj1 (proj2 (handleSearch_results_exclude_error (js "http://localhost:8000")
                         asciiUpper (Resolved r) st B)) r eq_refl Hok).
Defined.

Lemma nth_error_mapi {A B : Type} (f : Z -> A -> B) (l : list A) :
  forall k i,
    nth_error (SearchPage.mapi f k l) i
    = option_map (f (k + Z.of_nat i)%Z) (nth_error l i).
Proof.
  induction l as [|a l IH]; intros k i.
  - destruct i; reflexivity.
  - destruct i as [|i]; simpl.
    + now rewrite Z.add_0_r.
    + rewrite IH. do 2 f_equal. lia.
Qed.

Lemma length_mapi {A B : Type} (f : Z -> A -> B) (l : list A) :
  forall k, List.length (SearchPage.mapi f k l) = List.length l.
Proof.
  induction l as [|a l IH]; intros k; simpl; [reflexivity | now rewrite IH].
Qed.

(** The cards of a response whose every text can be highlighted with the
    echoed query, position by position. *)
Lemma cards_of_results canonicalize q (l : list SearchPage.ChunkResult.t) :
  (forall result,
      In result l ->
      SearchPage.highlightText canonicalize (SearchPage.ChunkResult.text result) q
      <> None) ->
  forall k,
  exists cards,
    traverse (fun card => card) (SearchPage.mapi (SearchPage.resultCard canonicalize q) k l)
    = Some cards
    /\ List.length cards = List.length l
    /\ forall i result,
         nth_error l i = Some result ->
         exists card,
           nth_error cards i = Some card
           /\ SearchPage.resultCard canonicalize q (k + Z.of_nat i)%Z result = Some card.
Proof.
  induction l as [|a l IH]; intros H k.
  - exists []. split; [reflexivity|]. split; [reflexivity|].
    intros [|i] result Hi; discriminate Hi.
  - assert (Ha : exists card, SearchPage.resultCard canonicalize q k a = Some card).
    { unfold SearchPage.resultCard.
      destruct (SearchPage.highlightText canonicalize (SearchPage.ChunkResult.text a) q)
        eqn:E; [eauto|].
      exfalso. apply (H a); [now left | exact E]. }
    destruct Ha as [card Hcard].
    destruct (IH (fun result Hin => H result (or_intror Hin)) (k + 1)%Z)
      as [cards [Ht [Hl Hn]]].
    exists (card :: cards). simpl. rewrite Hcard, Ht.
    split; [reflexivity|]. split; [simpl; now rewrite Hl|].
    intros [|i] result Hi; simpl in Hi.
    + injection Hi as <-. exists card. split; [reflexivity|].
      now rewrite Z.add_0_r.
    + destruct (Hn i result Hi) as [card' [H1 H2]].
      exists card'. split; [exact H1|].
      replace (k + Z.of_nat (S i))%Z with (k + 1 + Z.of_nat i)%Z by lia. exact H2.
Qed.

(** X3.  The results panel is chosen by [total_results] alone.  When it is
    zero the panel is "No results found" even if [results] is not empty,
    and no regular expression is built, whatever the echoed query.  When it
    is not zero and every text can be highlighted with the echoed query, the
    panel holds one card per element of [results], in the order of the
    response: the card at position [i] carries rank [i + 1], the chunk
    number [chunk_index + 1] and the text highlighted with the query echoed
    by the response.  Typing in the search box does not change what is
    shown. *)
Theorem render_cards_follow_response :
  forall canonicalize st r,
    SearchPage.results st = Some r ->
    (SearchPage.SearchResponse.total_results r <> 0%Z ->
     (forall result,
         In result (SearchPage.SearchResponse.results r) ->
         SearchPage.highlightText canonicalize
           (SearchPage.ChunkResult.text result) (SearchPage.SearchResponse.query r)
         <> None) ->
     exists view label cards,
       SearchPage.render canonicalize st = Some view
       /\ SearchPage.results_panel view
          = Some {| SearchPage.count_label := label;
                    SearchPage.panel_body := SearchPage.ResultCards cards |}
       /\ List.length cards = List.length (SearchPage.SearchResponse.results r)
       /\ (forall i result,
              nth_error (SearchPage.SearchResponse.results r) i = Some result ->
              exists card,
                nth_error cards i = Some card
                /\ SearchPage.rank card = (Z.of_nat i + 1)%Z
                /\ SearchPage.chunk_number card
                   = (SearchPage.ChunkResult.chunk_index result + 1)%Z
                /\ SearchPage.highlightText canonicalize
                     (SearchPage.ChunkResult.text result)
                     (SearchPage.SearchResponse.query r)
                   = Some (SearchPage.html card)))
    /\ (SearchPage.SearchResponse.total_results r = 0%Z ->
        exists view label,
          SearchPage.render canonicalize st = Some view
          /\ SearchPage.results_panel view
             = Some {| SearchPage.count_label := label;
                       SearchPage.panel_body := SearchPage.NoResultsFound |})
    /\ (forall typed,
           SearchPage.render canonicalize
             (finalState (SearchPage.setQuery typed st))
           = SearchPage.render canonicalize st).
Proof.
  intros canonicalize st r Hr. split; [|split].
  - intros Hn Hh. unfold SearchPage.render, SearchPage.panelBody. rewrite Hr.
    apply Z.eqb_neq in Hn. rewrite Hn.
    destruct (cards_of_results canonicalize (SearchPage.SearchResponse.query r)
                (SearchPage.SearchResponse.results r) Hh 0%Z)
      as [cards [Ht [Hl Hc]]].
    rewrite Ht. simpl.
    eexists; eexists; exists cards. split; [reflexivity|]. split; [reflexivity|].
    split; [exact Hl|].
    intros i result Hi. destruct (Hc i result Hi) as [card [H1 H2]].
    exists card. split; [exact H1|].
    unfold SearchPage.resultCard in H2.
    destruct (SearchPage.highlightText canonicalize
                (SearchPage.ChunkResult.text result)
                (SearchPage.SearchResponse.query r)) as [h|]; [|discriminate].
    injection H2 as <-. simpl. repeat split.
  - intros Hz. unfold SearchPage.render, SearchPage.panelBody. rewrite Hr, Hz. simpl.
    eexists; eexists. split; reflexivity.
  - intros typed. reflexivity.
Qed.

Lemma render_cards_follow_response_witness :
  let mk i := {| SearchPage.ChunkResult.id := i; SearchPage.ChunkResult.text := js "Vector index";
                 SearchPage.ChunkResult.chunk_index := i;
                 SearchPage.ChunkResult.document_id := 1;
                 SearchPage.ChunkResult.filename := js "a.txt";
                 SearchPage.ChunkResult.similarity_score := (7 # 10)%Q |} in
  let r := {| SearchPage.SearchResponse.query := js "index";
              SearchPage.SearchResponse.results := [mk 0%Z; mk 4%Z];
              SearchPage.SearchResponse.total_results := 2 |} in
  let st := {| SearchPage.query := js "typed"; SearchPage.results := Some r;
               SearchPage.loading := false; SearchPage.error := [] |} in
  SearchPage.results st = Some r
  /\ SearchPage.SearchResponse.total_results r <> 0%Z
  /\ (forall result,
         In result (SearchPage.SearchResponse.results r) ->
         SearchPage.highlightText asciiUpper
           (SearchPage.ChunkResult.text result) (SearchPage.SearchResponse.query r)
         <> None)
  /\ exists view label cards,
       SearchPage.render asciiUpper st = Some view
       /\ SearchPage.results_panel view
          = Some {| SearchPage.count_label := label;
                    SearchPage.panel_body := SearchPage.ResultCards cards |}
       /\ List.length cards = 2%nat.
Proof.
  intros mk r st.
  assert (Hr : SearchPage.results st = Some r) by reflexivity.
  assert (Hn : SearchPage.SearchResponse.total_results r <> 0%Z) by discriminate.
  assert (Hh : forall result,
             In result (SearchPage.SearchResponse.results r) ->
             SearchPage.highlightText asciiUpper
               (SearchPage.ChunkResult.text result) (SearchPage.SearchResponse.query r)
             <> None).
  { intros result [<- | [<- | []]]; discriminate. }
  split; [exact Hr|]. split; [exact Hn|]. split; [exact Hh|].
  destruct (proj1 (render_cards_follow_response asciiUpper st r Hr) Hn Hh)
    as [view [label [cards [H1 [H2 [H3 _]]]]]].
  exists view, label, cards. split; [exact H1|]. split; [exact H2 | exact H3].
Defined.

Lemma Qle_bool_of_lt [x y : Q] : (y < x)%Q -> Qle_bool x y = false.
Proof.
  intros H. destruct (Qle_bool x y) eqn:E; [|reflexivity].
  apply Qle_bool_iff in E. exfalso. exact (Qlt_not_le _ _ H E).
Qed.

Lemma Qle_bool_of_le [x y : Q] : (x <= y)%Q -> Qle_bool x y = true.
Proof. apply Qle_bool_iff. Qed.

Lemma Qle_bool_Qeq_r (x : Q) [y y' : Q] : (y == y')%Q -> Qle_bool x y = Qle_bool x y'.
Proof.
  intros H. destruct (Qle_bool x y') eqn:E.
  - apply Qle_bool_iff. apply Qle_bool_iff in E. now rewrite H.
  - destruct (Qle_bool x y) eqn:E'; [|reflexivity].
    apply Qle_bool_iff in E'. rewrite H in E'.
    apply Qle_bool_iff in E'. congruence.
Qed.

(** The comparisons of [getScoreColor] on a finite score: each literal is
    the double whose exact value is given. *)
Lemma gtb_literals (v : Q) :
  Double.gtb (Double.Finite v) (Double.ofDecimal (8 # 10)) = negb (Qle_bool v double08)
  /\ Double.gtb (Double.Finite v) (Double.ofDecimal (6 # 10)) = negb (Qle_bool v double06)
  /\ Double.gtb (Double.Finite v) (Double.ofDecimal (4 # 10)) = negb (Qle_bool v double04).
Proof.
  split; [|split].
  - destruct (Double.ofDecimal (8 # 10)) as [c|] eqn:E; [|vm_compute in E; discriminate E].
    simpl. f_equal. apply Qle_bool_Qeq_r.
    vm_compute in E. injection E as <-. reflexivity.
  - destruct (Double.ofDecimal (6 # 10)) as [c|] eqn:E; [|vm_compute in E; discriminate E].
    simpl. f_equal. apply Qle_bool_Qeq_r.
    vm_compute in E. injection E as <-. reflexivity.
  - destruct (Double.ofDecimal (4 # 10)) as [c|] eqn:E; [|vm_compute in E; discriminate E].
    simpl. f_equal. apply Qle_bool_Qeq_r.
    vm_compute in E. injection E as <-. reflexivity.
Qed.

(** X4.  The chat page and the search page colour a score alike, and the
    comparisons are those of doubles, strict at each threshold.  A finite
    score is green above the double [0.8], blue above the double [0.6] and
    at most the double [0.8], yellow above the double [0.4] and at most the
    double [0.6], and gray at most the double [0.4]; a number of the body
    beyond the range of doubles is green when positive and gray when
    negative.  So a body score that rounds to the double [0.8], such as
    0.8 itself or 0.80000000000000005, is blue. *)
Theorem getScoreColor_thresholds :
  forall s,
    ChatPage.getScoreColor s = SearchPage.getScoreColor s
    /\ (forall v,
           Double.ofDecimal s = Double.Finite v ->
           ((double08 < v)%Q -> SearchPage.getScoreColor s = js "text-green-600")
           /\ ((double06 < v)%Q -> (v <= double08)%Q ->
               SearchPage.getScoreColor s = js "text-blue-600")
           /\ ((double04 < v)%Q -> (v <= double06)%Q ->
               SearchPage.getScoreColor s = js "text-yellow-600")
           /\ ((v <= double04)%Q -> SearchPage.getScoreColor s = js "text-gray-600"))
    /\ (Double.ofDecimal s = Double.Infinity false ->
        SearchPage.getScoreColor s = js "text-green-600")
    /\ (Double.ofDecimal s = Double.Infinity true ->
        SearchPage.getScoreColor s = js "text-gray-600")
    /\ (exists c8 c6 c4,
           Double.ofDecimal (8 # 10) = Double.Finite c8 /\ (c8 == double08)%Q
           /\ Double.ofDecimal (6 # 10) = Double.Finite c6 /\ (c6 == double06)%Q
           /\ Double.ofDecimal (4 # 10) = Double.Finite c4 /\ (c4 == double04)%Q).
Proof.
  intros s. split; [reflexivity|]. split; [|split; [|split]].
  - intros v Hv. unfold SearchPage.getScoreColor. cbv zeta. rewrite Hv.
    destruct (gtb_literals v) as [-> [-> ->]].
    assert (H68 : (double06 <= double08)%Q) by (vm_compute; discriminate).
    assert (H46 : (double04 <= double06)%Q) by (vm_compute; discriminate).
    split; [|split; [|split]].
    + intros H. now rewrite (Qle_bool_of_lt H).
    + intros H1 H2. now rewrite (Qle_bool_of_le H2), (Qle_bool_of_lt H1).
    + intros H1 H2.
      assert (H3 : (v <= double08)%Q) by (eapply Qle_trans; eassumption).
      now rewrite (Qle_bool_of_le H3), (Qle_bool_of_le H2), (Qle_bool_of_lt H1).
    + intros H.
      assert (H2 : (v <= double06)%Q) by (eapply Qle_trans; eassumption).
      assert (H3 : (v <= double08)%Q) by (eapply Qle_trans; eassumption).
      now rewrite (Qle_bool_of_le H3), (Qle_bool_of_le H2), (Qle_bool_of_le H).
  - intros Hv. unfold SearchPage.getScoreColor. cbv zeta. rewrite Hv.
    destruct (Double.ofDecimal (8 # 10)) as [c|] eqn:E; [reflexivity|].
    vm_compute in E. discriminate E.
  - intros Hv. unfold SearchPage.getScoreColor. cbv zeta. rewrite Hv.
    destruct (Double.ofDecimal (8 # 10)) as [c8|] eqn:E8; [|vm_compute in E8; discriminate E8].
    destruct (Double.ofDecimal (6 # 10)) as [c6|] eqn:E6; [|vm_compute in E6; discriminate E6].
    destruct (Double.ofDecimal (4 # 10)) as [c4|] eqn:E4; [|vm_compute in E4; discriminate E4].
    reflexivity.
  - do 3 eexists. repeat split; vm_compute; reflexivity.
Qed.

Lemma getScoreColor_thresholds_witness :
  let near := (80000000000000005 # 100000000000000000)%Q in
  let above := (8000000000000002 # 10000000000000000)%Q in
  (exists v, Double.ofDecimal near = Double.Finite v
             /\ (double06 < v)%Q /\ (v <= double08)%Q
             /\ SearchPage.getScoreColor near = js "text-blue-600")
  /\ (exists v, Double.ofDecimal above = Double.Finite v
                /\ (double08 < v)%Q
                /\ SearchPage.getScoreColor above = js "text-green-600").
Proof.
  intros near above. split.
  - eexists. assert (Hv : Double.ofDecimal near = Double.Finite _)
      by (vm_compute; reflexivity).
    split; [exact Hv|].
    assert (H1 : (double06 < 7205759403792794 # 9007199254740992)%Q)
      by (vm_compute; reflexivity).
    assert (H2 : (7205759403792794 # 9007199254740992 <= double08)%Q)
      by (vm_compute; discriminate).
    split; [exact H1|]. split; [exact H2|].
    exact (proj1 (proj2 (proj1 (proj2 (getScoreColor_thresholds near)) _ Hv)) H1 H2).
  - eexists. assert (Hv : Double.ofDecimal above = Double.Finite _)
      by (vm_compute; reflexivity).
    split; [exact Hv|].
    assert (H1 : (double08 < 7205759403792795 # 9007199254740992)%Q)
      by (vm_compute; reflexivity).
    split; [exact H1|].
    exact (proj1 (proj1 (proj2 (getScoreColor_thresholds above)) _ Hv) H1).
Defined.

(* ================================================================== *)
(** ** Further properties of the highlighting *)
(* ================================================================== *)

Lemma join_split_bars (s : jsstring) :
  join [124%N] (split 32%N s) = spacesToBars s.
Proof.
  induction s as [|c s IH]; [reflexivity|].
  simpl split. simpl spacesToBars.
  pose proof (split_not_nil 32%N s) as Hne.
  destruct (c =? 32)%N.
  - destruct (split 32%N s) as [|t ts] eqn:E; [congruence|].
    change (join [124%N] ([] :: t :: ts)) with ([] ++ [124%N] ++ join [124%N] (t :: ts)).
    now rewrite IH.
  - destruct (split 32%N s) as [|t ts] eqn:E; [congruence|].
    rewrite <- IH. destruct ts; reflexivity.
Qed.

(** X5.  The pattern that [highlightText] compiles is the trimmed query
    with every space turned into the alternation bar, inside one group; the
    query is not escaped.  So a vertical bar typed in the query separates
    alternatives exactly as a space does: two non-blank queries that agree
    once spaces are read as bars highlight every text alike. *)
Theorem highlightText_bar_separates_like_space :
  forall canonicalize text q q',
    SearchPage.highlightPattern q = js "(" ++ spacesToBars (trim q) ++ js ")"
    /\ (blank q = false -> blank q' = false ->
        spacesToBars (trim q) = spacesToBars (trim q') ->
        SearchPage.highlightText canonicalize text q
        = SearchPage.highlightText canonicalize text q').
Proof.
  intros canonicalize text q q'.
  assert (P : forall x, SearchPage.highlightPattern x
                        = js "(" ++ spacesToBars (trim x) ++ js ")").
  { intros x. unfold SearchPage.highlightPattern.
    change (js "|") with [124%N]. now rewrite join_split_bars. }
  split; [apply P|].
  intros B B' E. unfold SearchPage.highlightText.
  rewrite !trim_truthy, B, B', !P, E. reflexivity.
Qed.

Lemma highlightText_bar_separates_like_space_witness :
  let text := js "alpha beta" in
  blank (js "alpha|beta") = false
  /\ blank (js "alpha beta") = false
  /\ spacesToBars (trim (js "alpha|beta")) = spacesToBars (trim (js "alpha beta"))
  /\ SearchPage.highlightText asciiUpper text (js "alpha|beta")
     = SearchPage.highlightText asciiUpper text (js "alpha beta").
Proof.
  intros text.
  assert (B : blank (js "alpha|beta") = false) by reflexivity.
  assert (B' : blank (js "alpha beta") = false) by reflexivity.
  assert (E : spacesToBars (trim (js "alpha|beta"))
              = spacesToBars (trim (js "alpha beta"))) by reflexivity.
  split; [exact B|]. split; [exact B'|]. split; [exact E|].
  exact (proj2 (highlightText_bar_separates_like_space asciiUpper text
                  (js "alpha|beta") (js "alpha beta")) B B' E).
Defined.

Section HighlightMore.

Import RegExp.

Variable canonicalize : char -> char.

Lemma scan_without_match alts s :
  (forall pre suf, s = pre ++ suf -> firstMatch canonicalize alts suf = None) ->
  scan canonicalize alts s 0 = map Unmatched s.
Proof.
  induction s as [|c r IH]; intros H; simpl.
  - now rewrite (H [] [] eq_refl).
  - rewrite (H [] (c :: r) eq_refl). f_equal. apply IH.
    intros pre suf E. apply (H (c :: pre) suf). simpl. now rewrite E.
Qed.

Lemma flat_map_marked_unmatched s : flat_map marked (map Unmatched s) = s.
Proof. induction s as [|c s IH]; simpl; [reflexivity | now rewrite IH]. Qed.

Lemma matchesAt_canonical a b s :
  map canonicalize a = map canonicalize b ->
  matchesAt canonicalize a s = matchesAt canonicalize b s.
Proof.
  revert b s; induction a as [|p a IH]; intros [|q b] s H; simpl in H;
    try discriminate; [reflexivity|].
  injection H as Hp Hab. destruct s as [|c s]; simpl; [reflexivity|].
  now rewrite Hp, (IH b s Hab).
Qed.

Lemma firstMatch_canonical alts alts' s :
  Forall2 (fun a b => map canonicalize a = map canonicalize b) alts alts' ->
  firstMatch canonicalize alts s = firstMatch canonicalize alts' s.
Proof.
  induction 1 as [|a b alts alts' Hab _ IH]; simpl; [reflexivity|].
  rewrite (matchesAt_canonical a b s Hab), IH.
  apply (f_equal (@List.length char)) in Hab. rewrite !length_map in Hab.
  now rewrite Hab.
Qed.

Lemma scan_same_matches alts alts' s :
  (forall x, firstMatch canonicalize alts x = firstMatch canonicalize alts' x) ->
  forall skip, scan canonicalize alts s skip = scan canonicalize alts' s skip.
Proof.
  intros H. induction s as [|c r IH]; intros [|k]; simpl; try reflexivity.
  - now rewrite H.
  - rewrite H. destruct (firstMatch canonicalize alts' (c :: r)) as [[|n]|];
      now rewrite IH.
  - apply IH.
Qed.

End HighlightMore.

(** X6.  When no piece of a non-blank query (free of syntax characters)
    matches anywhere in the text, [highlightText] returns the text as it
    is: no mark is inserted and nothing in the text is escaped or
    rewritten. *)
Theorem highlightText_without_occurrence :
  forall canonicalize text query,
    blank query = false ->
    let tokens := split 32%N (trim query) in
    Forall (fun t => patternText t = true) tokens ->
    (forall pre suf, text = pre ++ suf ->
                     RegExp.firstMatch canonicalize tokens suf = None) ->
    SearchPage.highlightText canonicalize text query = Some text.
Proof.
  intros canonicalize text query B tokens HF Hno.
  unfold SearchPage.highlightText. rewrite trim_truthy, B. simpl negb. cbv iota.
  rewrite (compile_highlightPattern query HF). fold tokens.
  rewrite replace_marked, (scan_without_match canonicalize tokens text Hno).
  now rewrite flat_map_marked_unmatched.
Qed.

Lemma highlightText_without_occurrence_witness :
  let text := js "<b>" in
  let query := js "mark" in
  blank query = false
  /\ Forall (fun t => patternText t = true) (split 32%N (trim query))
  /\ SearchPage.highlightText asciiUpper text query = Some text.
Proof.
  intros text query.
  assert (B : blank query = false) by reflexivity.
  assert (HF : Forall (fun t => patternText t = true) (split 32%N (trim query)))
    by (repeat constructor).
  split; [exact B|]. split; [exact HF|].
  apply (highlightText_without_occurrence asciiUpper text query B HF).
  intros pre suf E.
  destruct pre as [|a [|b [|c [|d pre]]]]; simpl in E.
  - subst suf. reflexivity.
  - injection E as _ <-. reflexivity.
  - injection E as _ _ <-. reflexivity.
  - injection E as _ _ _ <-. reflexivity.
  - injection E as _ _ _ E. discriminate.
Defined.

(** X7.  Highlighting does not depend on the case of the query: two
    non-blank queries, free of syntax characters, whose pieces are pairwise
    equal up to case highlight every text alike. *)
Theorem highlightText_ignores_query_case :
  forall canonicalize text q q',
    blank q = false -> blank q' = false ->
    Forall (fun t => patternText t = true) (split 32%N (trim q)) ->
    Forall (fun t => patternText t = true) (split 32%N (trim q')) ->
    Forall2 (fun a b => map canonicalize a = map canonicalize b)
      (split 32%N (trim q)) (split 32%N (trim q')) ->
    SearchPage.highlightText canonicalize text q
    = SearchPage.highlightText canonicalize text q'.
Proof.
  intros canonicalize text q q' B B' HF HF' Hcase.
  unfold SearchPage.highlightText. rewrite !trim_truthy, B, B'. simpl negb. cbv iota.
  rewrite (compile_highlightPattern q HF), (compile_highlightPattern q' HF').
  unfold RegExp.replace. f_equal. f_equal.
  apply scan_same_matches. intros x. now apply firstMatch_canonical.
Qed.

Lemma highlightText_ignores_query_case_witness :
  let text := js "Chunk and chunks" in
  blank (js "CHUNK") = false /\ blank (js "chunk") = false
  /\ SearchPage.highlightText asciiUpper text (js "CHUNK")
     = SearchPage.highlightText asciiUpper text (js "chunk").
Proof.
  intros text.
  assert (B : blank (js "CHUNK") = false) by reflexivity.
  assert (B' : blank (js "chunk") = false) by reflexivity.
  split; [exact B|]. split; [exact B'|].
  apply (highlightText_ignores_query_case asciiUpper text (js "CHUNK") (js "chunk") B B').
  - repeat constructor.
  - repeat constructor.
  - repeat constructor.
Defined.

(* ================================================================== *)
(** ** Further properties of the chat page *)
(* ================================================================== *)

(** A completed [ask] on a non-blank query with no request pending, for
    every answer of the network. *)
Lemma ask_run api net (st : ChatPage.State) :
  blank (ChatPage.query st) = false ->
  ChatPage.loading st = false ->
  ChatPage.ask api net st
  = (inr tt,
     match net with
     | Rejected e =>
         {| ChatPage.query := ChatPage.query st; ChatPage.loading := false;
            ChatPage.answer := []; ChatPage.citations := []; ChatPage.hits := [];
            ChatPage.error := messageOr (js "Failed to get answer") e |}
     | Resolved r =>
         if ok r then
           match json r with
           | inr data =>
               {| ChatPage.query := ChatPage.query st; ChatPage.loading := false;
                  ChatPage.answer := ChatPage.stringOrEmpty (ChatPage.QAResponse.answer data);
                  ChatPage.citations := ChatPage.arrayOrEmpty (ChatPage.QAResponse.citations data);
                  ChatPage.hits := ChatPage.arrayOrEmpty (ChatPage.QAResponse.hits data);
                  ChatPage.error := [] |}
           | inl e =>
               {| ChatPage.query := ChatPage.query st; ChatPage.loading := false;
                  ChatPage.answer := []; ChatPage.citations := []; ChatPage.hits := [];
                  ChatPage.error := messageOr (js "Failed to get answer") e |}
           end
         else
           {| ChatPage.query := ChatPage.query st; ChatPage.loading := false;
              ChatPage.answer := []; ChatPage.citations := []; ChatPage.hits := [];
              ChatPage.error := js "Request failed: " ++ statusText r |}
     end,
     [PreventDefault; Fetch (ChatPage.qaRequest api (ChatPage.query st))]).
Proof.
  intros H L. unfold ChatPage.ask.
  unfold bind at 1. simpl emit. cbv iota beta.
  rewrite trim_truthy, H, L. simpl negb. simpl orb. cbv iota.
  destruct net as [e | r]; [reflexivity|].
  unfold ChatPage.setLoading, ChatPage.setError, ChatPage.setAnswer,
    ChatPage.setCitations, ChatPage.setHits.
  run_handler.
  destruct (ok r); simpl; [|reflexivity].
  destruct (json r); reflexivity.
Qed.

(** X8.  A failed question never leaves an earlier answer on the page.
    When the fetch rejects, the response is outside the 2xx range, or its
    body does not parse, [ask] ends with the answer, the citations and the
    hits empty, the loading flag cleared and the error set: to
    [Request failed: <statusText>] for a response outside the 2xx range, and
    to the message of the thrown error otherwise. *)
Theorem ask_failure_clears_answer :
  forall api net st,
    blank (ChatPage.query st) = false ->
    ChatPage.loading st = false ->
    let st' := finalState (ChatPage.ask api net st) in
    let cleared :=
      ChatPage.answer st' = [] /\ ChatPage.citations st' = []
      /\ ChatPage.hits st' = [] /\ ChatPage.loading st' = false in
    (forall e, transportFailure net = Some e ->
               (forall r, net = Resolved r -> ok r = true) ->
               cleared
               /\ ChatPage.error st' = messageOr (js "Failed to get answer") e)
    /\ (forall r, net = Resolved r -> ok r = false ->
                  cleared
                  /\ ChatPage.error st' = js "Request failed: " ++ statusText r).
Proof.
  intros api net st B L st' cleared. subst cleared st'.
  rewrite (ask_run api net st B L). unfold finalState; simpl. split.
  - intros e Hf Hok. destruct net as [e' | r]; simpl in Hf.
    + injection Hf as ->. repeat split.
    + rewrite (Hok r eq_refl). destruct (json r); [|discriminate].
      injection Hf as ->. repeat split.
  - intros r -> Hok. rewrite Hok. repeat split.
Qed.

Lemma ask_failure_clears_answer_witness :
  let st := {| ChatPage.query := js "what changed?"; ChatPage.loading := false;
               ChatPage.answer := js "an earlier answer";
               ChatPage.citations := [];
               ChatPage.hits := [];
               ChatPage.error := [] |} in
  let r : Response ChatPage.QAResponse.t :=
    {| status := 500; statusText := js "Internal Server Error";
       json := inl OtherValue |} in
  let st' := finalState (ChatPage.ask (js "http://localhost:8000") (Resolved r) st) in
  blank (ChatPage.query st) = false /\ ChatPage.loading st = false /\ ok r = false
  /\ ChatPage.answer st' = []
  /\ ChatPage.error st' = js "Request failed: Internal Server Error".
Proof.
  intros st r st'.
  assert (B : blank (ChatPage.query st) = false) by reflexivity.
  assert (L : ChatPage.loading st = false) by reflexivity.
  assert (Hok : ok r = false) by reflexivity.
  pose proof (proj2 (ask_failure_clears_answer (js "http://localhost:8000")
                       (Resolved r) st B L) r eq_refl Hok) as H.
  split; [exact B|]. split; [exact L|]. split; [exact Hok|]. split.
  - exact (proj1 (proj1 H)).
  - exact (proj2 H).
Defined.

(** X9.  While a question is pending, a second submit on the chat page does
    nothing: whatever the query, [ask] returns with the state unchanged and
    without a request, so an answer in flight is never raced by another. *)
Theorem ask_ignores_submit_while_loading :
  forall api net st,
    ChatPage.loading st = true ->
    ChatPage.ask api net st = (inr tt, st, [PreventDefault])
    /\ requests (trace (ChatPage.ask api net st)) = [].
Proof.
  intros api net st L.
  rewrite (ask_returns_early api net st (or_intror L)). split; reflexivity.
Qed.

Lemma ask_ignores_submit_while_loading_witness :
  let st := {| ChatPage.query := js "second question"; ChatPage.loading := true;
               ChatPage.answer := []; ChatPage.citations := [];
               ChatPage.hits := []; ChatPage.error := [] |} in
  ChatPage.loading st = true
  /\ requests (trace (ChatPage.ask (js "http://localhost:8000")
                        (Rejected OtherValue) st)) = [].
Proof.
  intros st. split; [reflexivity|].
  exact (proj2 (ask_ignores_submit_while_loading (js "http://localhost:8000")
                  (Rejected OtherValue) st eq_refl)).
Defined.

(** X10.  The chat page shows citations only inside the answer section.  So
    when a successful response carries no answer text, the page shows
    neither an answer nor any citation of the response, shows the
    instructions card again, and still lists the hits: one card per hit, in
    order, the card at position [i] with rank [i + 1] and the chunk index
    as received. *)
Theorem chat_render_without_answer :
  forall api st r data,
    blank (ChatPage.query st) = false ->
    ChatPage.loading st = false ->
    ok r = true ->
    json r = inr data ->
    ChatPage.stringOrEmpty (ChatPage.QAResponse.answer data) = [] ->
    let view := ChatPage.render (finalState (ChatPage.ask api (Resolved r) st)) in
    let hits := ChatPage.arrayOrEmpty (ChatPage.QAResponse.hits data) in
    ChatPage.answer_section view = None
    /\ ChatPage.error_banner view = None
    /\ ChatPage.instructions view = true
    /\ (hits <> [] ->
        exists cards,
          ChatPage.source_context view
          = Some {| ChatPage.chunk_count := Z.of_nat (List.length hits);
                    ChatPage.hit_cards := cards |}
          /\ List.length cards = List.length hits
          /\ forall i hit,
               nth_error hits i = Some hit ->
               exists card,
                 nth_error cards i = Some card
                 /\ ChatPage.rank card = (Z.of_nat i + 1)%Z
                 /\ ChatPage.card_chunk_index card = ChatPage.ContextHit.chunk_index hit)
    /\ (hits = [] -> ChatPage.source_context view = None).
Proof.
  intros api st r data B L Hok Hj Ha view hits. subst view.
  rewrite (ask_success api st r data B L Hok Hj). unfold finalState; simpl.
  unfold ChatPage.render; simpl. rewrite Ha. simpl. fold hits.
  split; [reflexivity|]. split; [reflexivity|]. split; [reflexivity|]. split.
  - intros Hne. destruct hits as [|h hs] eqn:E; [congruence|].
    eexists. split; [reflexivity|]. split; [apply length_mapi|].
    intros i hit Hi. rewrite nth_error_mapi, Hi. simpl.
    eexists; split; [reflexivity|]. split; reflexivity.
  - intros ->. reflexivity.
Qed.

Lemma chat_render_without_answer_witness :
  let st := {| ChatPage.query := js "notes"; ChatPage.loading := false;
               ChatPage.answer := []; ChatPage.citations := [];
               ChatPage.hits := []; ChatPage.error := [] |} in
  let hit := {| ChatPage.ContextHit.document_id := 4; ChatPage.ContextHit.chunk_index := 0;
                ChatPage.ContextHit.score := (7 # 10)%Q;
                ChatPage.ContextHit.preview := js "chunk text" |} in
  let data := {| ChatPage.QAResponse.answer := None;
                 ChatPage.QAResponse.citations :=
                   Some [{| ChatPage.Citation.document_id := 4;
                            ChatPage.Citation.chunk_index := 0 |}];
                 ChatPage.QAResponse.hits := Some [hit] |} in
  let r := {| status := 200; statusText := js "OK"; json := inr data |} in
  let view := ChatPage.render
                (finalState (ChatPage.ask (js "http://localhost:8000") (Resolved r) st)) in
  blank (ChatPage.query st) = false /\ ChatPage.loading st = false
  /\ ok r = true /\ json r = inr data
  /\ ChatPage.stringOrEmpty (ChatPage.QAResponse.answer data) = []
  /\ ChatPage.answer_section view = None
  /\ ChatPage.instructions view = true.
Proof.
  intros st hit data r view.
  pose proof (chat_render_without_answer (js "http://localhost:8000") st r data
                eq_refl eq_refl eq_refl eq_refl eq_refl) as H.
  do 5 (split; [reflexivity|]). split.
  - exact (proj1 H).
  - exact (proj1 (proj2 (proj2 H))).
Defined.

(* ================================================================== *)
(** ** Further properties of the ingest page *)
(* ================================================================== *)

(** A completed [handleSubmit] on a non-empty URL, for every answer of the
    network. *)
Lemma handleSubmit_run api net (st : IngestPage.State) :
  IngestPage.url st <> [] ->
  IngestPage.handleSubmit api net st
  = (inr tt,
     {| IngestPage.url := if ingestSucceeded net then [] else IngestPage.url st;
        IngestPage.source := IngestPage.source st;
        IngestPage.status :=
          match parsedBody net with
          | None => IngestPage.crossMark ++ js " Error: Failed to connect to API"
          | Some data =>
              if ingestSucceeded net then
                IngestPage.checkMark ++ js " Successfully queued "
                  ++ orUndefined (IngestPage.IngestResponse.job data)
                  ++ js " for "
                  ++ orUndefined (IngestPage.IngestResponse.source data)
              else
                IngestPage.crossMark ++ js " Error: "
                  ++ IngestPage.messageOrDefault (IngestPage.IngestResponse.message data)
          end;
        IngestPage.loading := false |},
     [PreventDefault;
      Fetch (IngestPage.ingestRequest api (IngestPage.source st) (IngestPage.url st))]).
Proof.
  intros H. unfold IngestPage.handleSubmit.
  unfold bind at 1. simpl emit. cbv iota beta.
  assert (T : truthy (IngestPage.url st) = true)
    by (destruct (IngestPage.url st); [congruence | reflexivity]).
  rewrite T. simpl negb. cbv iota.
  unfold IngestPage.setLoading, IngestPage.setStatus, IngestPage.setUrl.
  destruct net as [e | r]; [reflexivity|].
  run_handler.
  destruct (json r) as [e | data]; simpl; [reflexivity|].
  destruct (ok r); reflexivity.
Qed.

(** X11.  [handleSubmit] never throws and always clears the loading flag.
    The banner it leaves is green exactly when the response was in the 2xx
    range and its body parsed, and red in every other case; the URL field is
    emptied exactly in the green case and kept otherwise, so a failed
    ingestion can be retried without retyping.  The source selection is
    never changed. *)
Theorem handleSubmit_banner_tells_outcome :
  forall api net st,
    IngestPage.url st <> [] ->
    let run := IngestPage.handleSubmit api net st in
    let st' := finalState run in
    outcome run = inr tt
    /\ IngestPage.loading st' = false
    /\ IngestPage.source st' = IngestPage.source st
    /\ IngestPage.url st'
       = (if ingestSucceeded net then [] else IngestPage.url st)
    /\ IngestPage.statusBanner st'
       = Some (if ingestSucceeded net then IngestPage.Green else IngestPage.Red,
               IngestPage.status st').
Proof.
  intros api net st U run st'. subst st' run.
  rewrite (handleSubmit_run api net st U). unfold outcome, finalState; simpl.
  repeat (split; [reflexivity|]).
  unfold IngestPage.statusBanner; simpl.
  destruct net as [e | r]; simpl; [reflexivity|].
  destruct (json r); simpl; [reflexivity|].
  destruct (ok r); reflexivity.
Qed.

Lemma handleSubmit_banner_tells_outcome_witness :
  let st := {| IngestPage.url := js "https://github.com/facebook/react";
               IngestPage.source := js "github"; IngestPage.status := [];
               IngestPage.loading := false |} in
  let data := {| IngestPage.IngestResponse.job := None;
                 IngestPage.IngestResponse.source := None;
                 IngestPage.IngestResponse.message := Some (js "Unsupported source") |} in
  let net := Resolved {| status := 400; statusText := js "Bad Request";
                         json := inr data |} in
  let st' := finalState (IngestPage.handleSubmit (js "http://localhost:8000") net st) in
  IngestPage.url st <> []
  /\ IngestPage.url st' = IngestPage.url st
  /\ IngestPage.statusBanner st'
     = Some (IngestPage.Red,
             IngestPage.crossMark ++ js " Error: Unsupported source").
Proof.
  intros st data net st'.
  assert (U : IngestPage.url st <> []) by discriminate.
  pose proof (handleSubmit_banner_tells_outcome (js "http://localhost:8000") net st U)
    as [_ [_ [_ [H1 H2]]]].
  split; [exact U|]. split; [exact H1 | exact H2].
Defined.

(** X12.  Every request that [handleSubmit] issues is a [POST] to
    [<API>/ingest] whose body is [{source, url}] with the source selection
    and the URL of the form exactly as typed: the URL is not trimmed, and a
    URL of white space only is sent.  A non-empty URL issues exactly that
    one request, whether or not an ingestion is already pending. *)
Theorem ingest_request_shape :
  (forall api net st req,
      In req (requests (trace (IngestPage.handleSubmit api net st))) ->
      IngestPage.url st <> []
      /\ method req = POST
      /\ url req = api ++ js "/ingest"
      /\ body req = JsonBody (JObj [(js "source", JStr (IngestPage.source st));
                                    (js "url", JStr (IngestPage.url st))]))
  /\ (forall api net st,
         IngestPage.url st <> [] ->
         requests (trace (IngestPage.handleSubmit api net st))
         = [IngestPage.ingestRequest api (IngestPage.source st) (IngestPage.url st)]).
Proof.
  split.
  - intros api net st req Hin.
    destruct (IngestPage.url st) as [|c u] eqn:U.
    + rewrite handleSubmit_empty in Hin by assumption. destruct Hin.
    + assert (Hne : IngestPage.url st <> []) by (rewrite U; discriminate).
      rewrite (handleSubmit_run api net st Hne) in Hin.
      destruct Hin as [<- | []]. rewrite U.
      split; [discriminate|]. repeat split.
  - intros api net st U. now rewrite (handleSubmit_run api net st U).
Qed.

Lemma ingest_request_shape_witness :
  let st := {| IngestPage.url := js "  "; IngestPage.source := js "rss";
               IngestPage.status := []; IngestPage.loading := true |} in
  IngestPage.url st <> []
  /\ requests (trace (IngestPage.handleSubmit (js "http://localhost:8000")
                        (Rejected OtherValue) st))
     = [IngestPage.ingestRequest (js "http://localhost:8000") (js "rss") (js "  ")].
Proof.
  intros st.
  assert (U : IngestPage.url st <> []) by discriminate.
  split; [exact U|].
  exact (proj2 ingest_request_shape (js "http://localhost:8000")
           (Rejected OtherValue) st U).
Defined.

(* ================================================================== *)
(** ** Further properties of the upload page *)
(* ================================================================== *)

(** X13.  [onSubmit] looks neither at the status of the upload response nor
    at whether its body has a [document_id].  Whenever a file is selected
    and the body of the response parses, it stores what the body gives as
    document id, shows [Queued for parsing (doc #<id>)], issues the one
    [POST] of the file to [<API>/documents] and arms the first poll after
    1500 ms, for a response outside the 2xx range as for a success.  When
    the body has no [document_id], the line reads [doc #undefined], no
    document id is set and the poll it scheduled asks for
    [<API>/documents/undefined]. *)
Theorem onSubmit_schedules_poll :
  forall api st f r data,
    UploadPage.file st = Some f ->
    json r = inr data ->
    let id := UploadPage.UploadResponse.document_id data in
    UploadPage.onSubmit api (Resolved r) st
    = (inr (Some id),
       {| UploadPage.file := Some f;
          UploadPage.status :=
            js "Queued for parsing (doc #" ++ UploadPage.idToString id ++ js ")";
          UploadPage.docId := id |},
       [PreventDefault; Fetch (UploadPage.uploadRequest api f); SetTimeout 1500])
    /\ (id = None ->
        UploadPage.status (finalState (UploadPage.onSubmit api (Resolved r) st))
        = js "Queued for parsing (doc #undefined)"
        /\ UploadPage.docId (finalState (UploadPage.onSubmit api (Resolved r) st)) = None
        /\ url (UploadPage.statusRequest api id) = api ++ js "/documents/undefined")
    /\ (forall n, id = Some n ->
        url (UploadPage.statusRequest api id)
        = api ++ js "/documents/" ++ numberToString n).
Proof.
  intros api st f r data Hf Hj id.
  assert (Run : UploadPage.onSubmit api (Resolved r) st
                = (inr (Some id),
                   {| UploadPage.file := Some f;
                      UploadPage.status :=
                        js "Queued for parsing (doc #" ++ UploadPage.idToString id ++ js ")";
                      UploadPage.docId := id |},
                   [PreventDefault; Fetch (UploadPage.uploadRequest api f);
                    SetTimeout 1500])).
  { subst id. unfold UploadPage.onSubmit. unfold bind at 1. simpl emit. cbv iota beta.
    rewrite Hf. unfold UploadPage.setStatus, UploadPage.setDocId.
    run_handler. rewrite Hj, Hf. reflexivity. }
  split; [exact Run|]. split.
  - intros Hid. rewrite Run. unfold finalState; simpl. rewrite Hid.
    split; [reflexivity|]. split; reflexivity.
  - intros n Hid. rewrite Hid. reflexivity.
Qed.

Lemma onSubmit_schedules_poll_witness :
  let f := {| file_name := js "notes.txt"; file_bytes := [104; 105]%N |} in
  let st := {| UploadPage.file := Some f; UploadPage.status := [];
               UploadPage.docId := None |} in
  let data := {| UploadPage.UploadResponse.document_id := None |} in
  let r := {| status := 500; statusText := js "Internal Server Error";
              json := inr data |} in
  let run := UploadPage.onSubmit (js "http://localhost:8000") (Resolved r) st in
  UploadPage.file st = Some f
  /\ json r = inr data
  /\ ok r = false
  /\ UploadPage.status (finalState run) = js "Queued for parsing (doc #undefined)"
  /\ UploadPage.armsTimer (trace run) = true.
Proof.
  intros f st data r run.
  pose proof (onSubmit_schedules_poll (js "http://localhost:8000") st f r data
                eq_refl eq_refl) as [Run [Hu _]].
  split; [reflexivity|]. split; [reflexivity|]. split; [reflexivity|]. split.
  - exact (proj1 (Hu eq_refl)).
  - unfold run. rewrite Run. reflexivity.
Defined.

(** X14.  [onSubmit] has no error handling.  When the upload fetch rejects
    or its body does not parse, the handler throws what it received: the
    status line stays at [Uploading...], the document id is not set and no
    poll is scheduled. *)
Theorem onSubmit_failure_leaves_uploading :
  forall api st f net e,
    UploadPage.file st = Some f ->
    transportFailure net = Some e ->
    let run := UploadPage.onSubmit api net st in
    outcome run = inl e
    /\ UploadPage.status (finalState run) = js "Uploading..."
    /\ UploadPage.docId (finalState run) = UploadPage.docId st
    /\ UploadPage.armsTimer (trace run) = false
    /\ requests (trace run) = [UploadPage.uploadRequest api f].
Proof.
  intros api st f net e Hf He run. subst run.
  unfold UploadPage.onSubmit. unfold bind at 1. simpl emit. cbv iota beta.
  rewrite Hf. unfold UploadPage.setStatus, UploadPage.setDocId.
  destruct net as [e' | r]; simpl in He.
  - injection He as ->. run_handler. repeat split.
  - run_handler. destruct (json r); [|discriminate].
    injection He as ->. repeat split.
Qed.

Lemma onSubmit_failure_leaves_uploading_witness :
  let f := {| file_name := js "notes.txt"; file_bytes := [] |} in
  let st := {| UploadPage.file := Some f; UploadPage.status := [];
               UploadPage.docId := None |} in
  let net : FetchOutcome UploadPage.UploadResponse.t :=
    Rejected (ErrorObject (js "Failed to fetch")) in
  let run := UploadPage.onSubmit (js "http://localhost:8000") net st in
  UploadPage.file st = Some f
  /\ transportFailure net = Some (ErrorObject (js "Failed to fetch"))
  /\ UploadPage.status (finalState run) = js "Uploading..."
  /\ UploadPage.armsTimer (trace run) = false.
Proof.
  intros f st net run.
  pose proof (onSubmit_failure_leaves_uploading (js "http://localhost:8000") st f net
                (ErrorObject (js "Failed to fetch")) eq_refl eq_refl)
    as [_ [H1 [_ [H2 _]]]].
  split; [reflexivity|]. split; [reflexivity|]. split; [exact H1 | exact H2].
Defined.




(* ================================================================== *)
(** ** Further properties of the home page *)
(* ================================================================== *)

(** A completed [fetchApiHealth], for every answer of the network. *)
Lemma fetchApiHealth_run net (st : HomePage.ApiStatus) :
  HomePage.fetchApiHealth net st
  = (inr tt,
     match net with
     | Rejected e =>
         {| HomePage.isLoading := false; HomePage.isConnected := false;
            HomePage.data := None;
            HomePage.error := Some (messageOr (js "Unknown error occurred") e) |}
     | Resolved r =>
         if ok r then
           match json r with
           | inr d =>
               {| HomePage.isLoading := false; HomePage.isConnected := true;
                  HomePage.data := Some d; HomePage.error := None |}
           | inl e =>
               {| HomePage.isLoading := false; HomePage.isConnected := false;
                  HomePage.data := None;
                  HomePage.error := Some (messageOr (js "Unknown error occurred") e) |}
           end
         else
           {| HomePage.isLoading := false; HomePage.isConnected := false;
              HomePage.data := None;
              HomePage.error :=
                Some (js "HTTP error! status: " ++ numberToString (status r)) |}
     end,
     [Fetch HomePage.healthRequest]).
Proof.
  unfold HomePage.fetchApiHealth, HomePage.setApiStatus.
  run_handler.
  destruct net as [e | r]; [reflexivity|].
  destruct (ok r); simpl; [|reflexivity].
  destruct (json r); reflexivity.
Qed.



(** X17.  The text, the colour and the icon of the status card always tell
    the same story: they are the "checking" row, the "connected" row or the
    "disconnected" row together, never a mixture.  Once a health check has
    completed the card is out of the "checking" row, and it is in the
    "connected" row exactly when the check left the card connected. *)
Theorem status_card_rows_agree :
  forall s,
    (let row := (HomePage.getStatusText s, HomePage.getStatusColor s,
                 HomePage.getStatusIcon s) in
     row = (js "Checking API status...", js "text-yellow-600",
            (HomePage.Clock, js "h-6 w-6 text-yellow-500 animate-spin"))
     \/ row = (js "API Connected", js "text-green-600",
               (HomePage.CheckCircle, js "h-6 w-6 text-green-500"))
     \/ row = (js "API Disconnected", js "text-red-600",
               (HomePage.XCircle, js "h-6 w-6 text-red-500")))
    /\ (forall net,
           let s' := finalState (HomePage.fetchApiHealth net s) in
           HomePage.getStatusText s'
           = (if HomePage.isConnected s' then js "API Connected"
              else js "API Disconnected")
           /\ fst (HomePage.getStatusIcon s')
              = (if HomePage.isConnected s' then HomePage.CheckCircle
                 else HomePage.XCircle)).
Proof.
  intros s. split.
  - unfold HomePage.getStatusText, HomePage.getStatusColor, HomePage.getStatusIcon.
    destruct (HomePage.isLoading s); [now left|].
    destruct (HomePage.isConnected s); [right; now left | right; now right].
  - intros net s'. subst s'. rewrite (fetchApiHealth_run net s).
    unfold finalState, HomePage.getStatusText, HomePage.getStatusIcon; simpl.
    destruct net as [e | r]; simpl; [split; reflexivity|].
    destruct (ok r); [|split; reflexivity].
    destruct (json r); split; reflexivity.
Qed.

(* ================================================================== *)
(** ** The document page *)
(* ================================================================== *)

(** X18.  [trigger] does not look at the response.  Whenever the fetch
    resolves, with whatever status, it issues the one [POST] to the given
    path with no body, clears the loading flag and schedules a refresh after
    1200 ms.  When the fetch rejects it throws, and the loading flag stays
    set with no refresh scheduled, so both buttons stay disabled.  In both
    cases the document shown is not touched. *)
Theorem trigger_outcomes :
  forall api path st,
    (forall r,
        DocPage.trigger api path (Resolved r) st
        = (inr tt, {| DocPage.doc := DocPage.doc st; DocPage.loading := false |},
           [Fetch (DocPage.triggerRequest api path); SetTimeout 1200]))
    /\ (forall e,
           DocPage.trigger api path (Rejected e) st
           = (inl e, {| DocPage.doc := DocPage.doc st; DocPage.loading := true |},
              [Fetch (DocPage.triggerRequest api path)])
           /\ option_map DocPage.buttons_disabled
                (DocPage.render (finalState (DocPage.trigger api path (Rejected e) st)))
              = option_map (fun _ => true) (DocPage.doc st)).
Proof.
  intros api path st. split.
  - intros r. unfold DocPage.trigger, DocPage.setLoading. run_handler. reflexivity.
  - intros e. unfold DocPage.trigger, DocPage.setLoading. run_handler.
    split; [reflexivity|].
    unfold DocPage.render; simpl. destruct (DocPage.doc st); reflexivity.
Qed.



(* ================================================================== *)
(** ** Submit buttons and submit handlers *)
(* ================================================================== *)

(** X20.  On the chat page the submit button and the handler agree: [ask]
    issues a request exactly when the button is enabled.  On the search
    page an enabled button always leads to a request, but the handler does
    not test the loading flag: a submit that reaches it while a search is
    pending issues a second request although the button is disabled. *)
Theorem submit_button_matches_handler :
  (forall api net st,
      ChatPage.submitDisabled st = false
      <-> requests (trace (ChatPage.ask api net st))
          = [ChatPage.qaRequest api (ChatPage.query st)])
  /\ (forall api net st,
         ChatPage.submitDisabled st = true
         <-> requests (trace (ChatPage.ask api net st)) = [])
  /\ (forall api net st,
         SearchPage.submitDisabled st = false ->
         requests (trace (SearchPage.handleSearch api net st))
         = [SearchPage.searchRequest api (SearchPage.query st)])
  /\ (forall api net st,
         SearchPage.loading st = true ->
         blank (SearchPage.query st) = false ->
         SearchPage.submitDisabled st = true
         /\ requests (trace (SearchPage.handleSearch api net st))
            = [SearchPage.searchRequest api (SearchPage.query st)]).
Proof.
  assert (Chat : forall api net st,
             requests (trace (ChatPage.ask api net st))
             = if ChatPage.submitDisabled st then []
               else [ChatPage.qaRequest api (ChatPage.query st)]).
  { intros api net st. unfold ChatPage.submitDisabled. rewrite trim_truthy.
    destruct (ChatPage.loading st) eqn:L.
    - now rewrite ask_returns_early by auto.
    - destruct (blank (ChatPage.query st)) eqn:B; simpl.
      + now rewrite ask_returns_early by auto.
      + now rewrite ask_trace. }
  split; [|split; [|split]].
  - intros api net st. rewrite Chat.
    destruct (ChatPage.submitDisabled st); split; congruence.
  - intros api net st. rewrite Chat.
    destruct (ChatPage.submitDisabled st); split; congruence.
  - intros api net st H. unfold SearchPage.submitDisabled in H.
    apply orb_false_iff in H as [_ H]. rewrite trim_truthy, negb_involutive in H.
    now rewrite handleSearch_trace.
  - intros api net st L B. split.
    + unfold SearchPage.submitDisabled. now rewrite L.
    + now rewrite handleSearch_trace.
Qed.

Lemma submit_button_matches_handler_witness :
  let st := {| SearchPage.query := js "faiss"; SearchPage.results := None;
               SearchPage.loading := true; SearchPage.error := [] |} in
  SearchPage.loading st = true
  /\ blank (SearchPage.query st) = false
  /\ SearchPage.submitDisabled st = true
  /\ requests (trace (SearchPage.handleSearch (js "http://localhost:8000")
                        (Rejected OtherValue) st))
     = [SearchPage.searchRequest (js "http://localhost:8000") (js "faiss")].
Proof.
  intros st.
  pose proof (proj2 (proj2 (proj2 submit_button_matches_handler))
                (js "http://localhost:8000") (Rejected OtherValue) st eq_refl eq_refl)
    as [H1 H2].
  split; [reflexivity|]. split; [reflexivity|]. split; [exact H1 | exact H2].
Defined.
